(** * Legion package recipe: from a concrete spec to the CMake options

    A shallow embedding of [Legion.cmake_args] and of the variant and
    conflict declarations of
    [var/spack/repos/builtin/packages/legion/package.py], with the
    properties of the option list it returns.

    Python integers are [Z], Python strings are [string], the list
    [options] and the list [cmake_cxx_flags] are [list string], and
    [os.environ] is an association list.  The body of [cmake_args] is
    written in a small state-and-exception monad so that it can be read
    side by side with the Python text. *)

From Stdlib Require Import ZArith List String Ascii Bool Lia Btauto.
From Stdlib Require Import DecimalString DecimalPos DecimalZ Zbitwise.
Import ListNotations.

Open Scope string_scope.
Open Scope Z_scope.
Open Scope list_scope.

(* ================================================================== *)
(** ** Strings *)

(** ['%d' % n] for a Python integer. *)
Definition fmt_d (n : Z) : string := NilZero.string_of_int (Z.to_int n).

(** [str.upper] on the ASCII range. *)
Definition upper_ascii (c : ascii) : ascii :=
  let n := nat_of_ascii c in
  if (97 <=? n)%nat && (n <=? 122)%nat then ascii_of_nat (n - 32) else c.

Fixpoint upper (s : string) : string :=
  match s with
  | EmptyString => EmptyString
  | String c s' => String (upper_ascii c) (upper s')
  end.

(** The options that start with a given text, in order. *)
Definition with_prefix (p : string) (l : list string) : list string :=
  filter (String.prefix p) l.

(** How many times an option occurs. *)
Definition occurrences (x : string) (l : list string) : nat :=
  List.length (filter (String.eqb x) l).

(* ================================================================== *)
(** ** The concrete spec *)

(** The variants declared by the recipe (lines 71-193), the [build_type]
    variant inherited from [CMakePackage], and what [cmake_args] reads of
    the dependency DAG: the names of the nodes below the root and the
    [kokkos_cxx] attribute of the kokkos node.  [max_dims] and
    [max_fields] hold the integers that [int(...)] gives at lines 317 and
    321. *)
Record Spec : Type := {
  network : string;
  gasnet_root : string;
  conduit : string;
  gasnet_debug : bool;
  shared : bool;
  bounds_checks : bool;
  privilege_checks : bool;
  enable_tls : bool;
  output_level : string;
  spy : bool;
  cuda : bool;
  cuda_hijack : bool;
  cuda_arch : string;
  cuda_unsupported_compiler : bool;
  fortran : bool;
  hdf5 : bool;
  hwloc : bool;
  kokkos : bool;
  bindings : bool;
  libdl : bool;
  openmp : bool;
  papi : bool;
  python : bool;
  zlib : bool;
  redop_complex : bool;
  max_dims : Z;
  max_fields : Z;
  native : bool;
  build_type : string;
  nodes : list string;
  kokkos_cxx : string
}.

(** [name in spec] for a bare package name: a node of that name sits in
    the DAG below the root. *)
Definition has_node (name : string) (spec : Spec) : bool :=
  existsb (String.eqb name) (nodes spec).

(** The declared defaults, with an empty DAG. *)
Definition default_spec : Spec := {|
  network := "none";
  gasnet_root := "none";
  conduit := "none";
  gasnet_debug := false;
  shared := false;
  bounds_checks := false;
  privilege_checks := false;
  enable_tls := false;
  output_level := "warning";
  spy := false;
  cuda := false;
  cuda_hijack := false;
  cuda_arch := "70";
  cuda_unsupported_compiler := false;
  fortran := false;
  hdf5 := false;
  hwloc := false;
  kokkos := false;
  bindings := false;
  libdl := true;
  openmp := false;
  papi := false;
  python := false;
  zlib := true;
  redop_complex := false;
  max_dims := 3;
  max_fields := 512;
  native := false;
  build_type := "RelWithDebInfo";
  nodes := [];
  kokkos_cxx := ""
|}.

(* ================================================================== *)
(** ** Exceptions, outcomes and the frame of [cmake_args] *)

Inductive exn : Type :=
| InstallError (msg : string)
| KeyError (key : string)
| ConflictError (msg : option string).

Inductive outcome (A : Type) : Type :=
| Returned (a : A)
| Raised (e : exn)
| OutOfFuel.

Arguments Returned {A} a.
Arguments Raised {A} e.
Arguments OutOfFuel {A}.

(** The two local lists of [cmake_args] and the process environment.
    [os.environ[k] = v] puts a binding in front; a lookup takes the first
    binding of the key. *)
Record frame : Type := {
  options : list string;
  cmake_cxx_flags : list string;
  os_environ : list (string * string)
}.

Definition M (A : Type) : Type := frame -> outcome A * frame.

Definition ret {A} (a : A) : M A := fun st => (Returned a, st).

Definition bind {A B} (m : M A) (k : A -> M B) : M B :=
  fun st =>
    match m st with
    | (Returned a, st') => k a st'
    | (Raised e, st') => (Raised e, st')
    | (OutOfFuel, st') => (OutOfFuel, st')
    end.

Definition raise {A} (e : exn) : M A := fun st => (Raised e, st).

Definition out_of_fuel {A} : M A := fun st => (OutOfFuel, st).

Definition pass : M unit := ret tt.

Declare Scope py_scope.
Delimit Scope py_scope with py.
Notation "x <- m ;; k" := (bind m (fun x => k))
  (at level 61, m at next level, right associativity) : py_scope.
Notation "m ;; k" := (bind m (fun _ => k))
  (at level 61, right associativity) : py_scope.

Definition set_options (l : list string) : M unit :=
  fun st => (Returned tt,
             {| options := l;
                cmake_cxx_flags := cmake_cxx_flags st;
                os_environ := os_environ st |}).

Definition set_cmake_cxx_flags (l : list string) : M unit :=
  fun st => (Returned tt,
             {| options := options st;
                cmake_cxx_flags := l;
                os_environ := os_environ st |}).

Definition get_options : M (list string) :=
  fun st => (Returned (options st), st).

(** [options.append(x)] *)
Definition options_append (x : string) : M unit :=
  fun st => (Returned tt,
             {| options := options st ++ [x];
                cmake_cxx_flags := cmake_cxx_flags st;
                os_environ := os_environ st |}).

(** [cmake_cxx_flags.extend(l)] *)
Definition cmake_cxx_flags_extend (l : list string) : M unit :=
  fun st => (Returned tt,
             {| options := options st;
                cmake_cxx_flags := cmake_cxx_flags st ++ l;
                os_environ := os_environ st |}).

(** [os.environ[k] = v] *)
Definition environ_set (k v : string) : M unit :=
  fun st => (Returned tt,
             {| options := options st;
                cmake_cxx_flags := cmake_cxx_flags st;
                os_environ := (k, v) :: os_environ st |}).

Fixpoint getenv (k : string) (env : list (string * string)) : option string :=
  match env with
  | [] => None
  | (k', v) :: env' => if String.eqb k k' then Some v else getenv k env'
  end.

(** [spec['kokkos'].kokkos_cxx]: the lookup raises [KeyError] when the DAG
    has no node of that name. *)
Definition spec_kokkos_cxx (spec : Spec) : M string :=
  if has_node "kokkos" spec then ret (kokkos_cxx spec)
  else raise (KeyError "kokkos").

(* ================================================================== *)
(** ** [Legion.cmake_args] *)

(** Lines 327-328:
    [while maxfields & maxfields - 1: maxfields = maxfields & maxfields - 1].
    On a negative integer the Python loop does not end, so the loop takes
    fuel, one unit per test of the condition. *)
Fixpoint while_clear_lowest_bit (fuel : nat) (maxfields : Z) : M Z :=
  match fuel with
  | O => out_of_fuel
  | S fuel' =>
      if negb (Z.land maxfields (maxfields - 1) =? 0)
      then while_clear_lowest_bit fuel' (Z.land maxfields (maxfields - 1))
      else ret maxfields
  end.

Definition gasnet_root_msg : string :=
  "'gasnet_root' is only valid when 'network=gasnet'.".

Local Open Scope py_scope.

(** Lines 195-336. *)
Definition cmake_args (fuel : nat) (spec : Spec) : M (list string) :=
  set_cmake_cxx_flags [] ;;
  set_options [] ;;

  (if String.eqb (network spec) "gasnet" then
     options_append "-DLegion_NETWORKS=gasnetex" ;;
     (if negb (String.eqb (gasnet_root spec) "none") then
        let gasnet_dir := gasnet_root spec in
        options_append ("-DGASNet_ROOT_DIR=" ++ gasnet_dir)%string
      else
        options_append "-DLegion_EMBED_GASNet=ON") ;;
     let gasnet_conduit := conduit spec in
     options_append ("-DGASNet_CONDUIT=" ++ gasnet_conduit)%string ;;
     (if gasnet_debug spec then
        options_append "-DLegion_EMBED_GASNet_CONFIGURE_ARGS=--enable-debug"
      else pass)
   else if String.eqb (network spec) "mpi" then
     options_append "-DLegion_NETWORKS=mpi" ;;
     (if negb (String.eqb (gasnet_root spec) "none") then
        raise (InstallError gasnet_root_msg)
      else pass)
   else
     (if negb (String.eqb (gasnet_root spec) "none") then
        raise (InstallError gasnet_root_msg)
      else pass) ;;
     options_append "-DLegion_EMBED_GASNet=OFF") ;;

  (if shared spec then options_append "-DBUILD_SHARED_LIBS=ON"
   else options_append "-DBUILD_SHARED_LIBS=OFF") ;;

  (if bounds_checks spec then options_append "-DLegion_BOUNDS_CHECKS=ON"
   else pass) ;;
  (if privilege_checks spec then
     options_append "-DLegion_PRIVILEGE_CHECKS=ON"
   else pass) ;;
  (if enable_tls spec then options_append "-DLegion_ENABLE_TLS=ON"
   else pass) ;;
  (if has_node "output_level" spec then
     let level := upper (output_level spec) in
     options_append ("-DLegion_OUTPUT_LEVEL=" ++ level)%string
   else pass) ;;
  (if spy spec then options_append "-DLegion_SPY=ON" else pass) ;;

  (if cuda spec then
     let cuda_arch := cuda_arch spec in
     options_append "-DLegion_USE_CUDA=ON" ;;
     options_append "-DLegion_GPU_REDUCTIONS=ON" ;;
     options_append ("-DLegion_CUDA_ARCH=" ++ cuda_arch)%string ;;
     (if cuda_hijack spec then options_append "-DLegion_HIJACK_CUDART=ON"
      else options_append "-DLegion_HIJACK_CUDART=OFF") ;;
     (if cuda_unsupported_compiler spec then
        options_append
          "-DCUDA_NVCC_FLAGS:STRING=--allow-unsupported-compiler"
      else pass)
   else pass) ;;

  (if fortran spec then options_append "-DLegion_USE_Fortran=ON"
   else pass) ;;
  (if hdf5 spec then options_append "-DLegion_USE_HDF5=ON" else pass) ;;
  (if hwloc spec then options_append "-DLegion_USE_HWLOC=ON" else pass) ;;

  (if kokkos spec then
     options_append "-DLegion_USE_Kokkos=ON" ;;
     cxx <- spec_kokkos_cxx spec ;;
     environ_set "KOKKOS_CXX_COMPILER" cxx
   else pass) ;;

  (if libdl spec then options_append "-DLegion_USE_LIBDL=ON"
   else options_append "-DLegion_USE_LIBDL=OFF") ;;
  (if openmp spec then options_append "-DLegion_USE_OpenMP=ON"
   else pass) ;;
  (if papi spec then options_append "-DLegion_USE_PAPI=ON" else pass) ;;
  (if python spec then options_append "-DLegion_USE_Python=ON"
   else pass) ;;
  (if zlib spec then options_append "-DLegion_USE_ZLIB=ON"
   else options_append "-DLegion_USE_ZLIB=OFF") ;;
  (if redop_complex spec then options_append "-DLegion_REDOP_COMPLEX=ON"
   else pass) ;;

  (if bindings spec then
     options_append "-DLegion_BUILD_BINDINGS=ON" ;;
     options_append "-DLegion_REDOP_COMPLEX=ON" ;;
     options_append "-DLegion_USE_Fortran=ON"
   else pass) ;;

  (if String.eqb (build_type spec) "Debug" then
     cmake_cxx_flags_extend ["-DDEBUG_REALM"; "-DDEBUG_LEGION"; "-ggdb"]
   else pass) ;;

  let maxdims := max_dims spec in
  options_append ("-DLegion_MAX_DIM=" ++ fmt_d maxdims)%string ;;

  let maxfields := max_fields spec in
  let maxfields := if maxfields <=? 0 then 512 else maxfields in
  maxfields <-
    (if negb (Z.land maxfields (maxfields - 1) =? 0) then
       maxfields <- while_clear_lowest_bit fuel maxfields ;;
       ret (Z.shiftl maxfields 1)
     else ret maxfields) ;;
  options_append ("-DLegion_MAX_FIELDS=" ++ fmt_d maxfields)%string ;;

  (if native spec then options_append "-DBUILD_MARCH:STRING=native"
   else pass) ;;

  get_options.

Local Close Scope py_scope.

(** The specs on which no statement of [cmake_args] raises: the two
    [raise InstallError] of lines 218-222 are not reached, and the lookup
    [spec['kokkos']] of line 274 finds its node. *)
Definition cmake_args_ok (spec : Spec) : bool :=
  (String.eqb (network spec) "gasnet"
   || String.eqb (gasnet_root spec) "none")
  && (negb (kokkos spec) || has_node "kokkos" spec).

(** Fuel that lets the loop of lines 327-328 run to its end. *)
Definition enough_fuel (fuel : nat) (spec : Spec) : Prop :=
  (Z.to_nat (max_fields spec) <= fuel)%nat.

(* ================================================================== *)
(** ** The declared conflicts and the translation as a whole *)

(** One [conflicts(conflict_spec, when=..., msg=...)] directive. *)
Record ConflictRule : Type := {
  conflict_spec : Spec -> bool;
  when : Spec -> bool;
  msg : option string
}.

(** Line 106. *)
Definition gasnet_conduits : list string :=
  ["aries"; "ibv"; "udp"; "mpi"; "ucx"].

Definition conduit_msg : string :=
  "conduit attribute requires 'network=gasnet'.".

(** Modelled from the spec: the reading of the bare conflict spec
    ['gasnet_root'] of line 96, which the recipe leaves to the framework:
    "a custom directory override for the network transport's
    embedded-library root", that is a [gasnet_root] other than "none". *)
Definition gasnet_root_set (spec : Spec) : bool :=
  negb (String.eqb (gasnet_root spec) "none").

(** The directives of lines 96, 103-104, 107-112, 116-117 and 152, in the
    order of their declaration. *)
Definition conflicts : list ConflictRule :=
  [ {| conflict_spec := gasnet_root_set;
       when := fun spec => String.eqb (network spec) "mpi";
       msg := None |};
    {| conflict_spec := fun spec => String.eqb (conduit spec) "none";
       when := fun spec => String.eqb (network spec) "gasnet";
       msg := Some "a conduit must be selected when 'network=gasnet'" |} ]
  ++ flat_map
       (fun c =>
          [ {| conflict_spec := fun spec => String.eqb (conduit spec) c;
               when := fun spec => String.eqb (network spec) "mpi";
               msg := Some conduit_msg |};
            {| conflict_spec := fun spec => String.eqb (conduit spec) c;
               when := fun spec => String.eqb (network spec) "none";
               msg := Some conduit_msg |} ])
       gasnet_conduits
  ++ [ {| conflict_spec := gasnet_debug;
          when := fun spec => String.eqb (network spec) "mpi";
          msg := None |};
       {| conflict_spec := gasnet_debug;
          when := fun spec => String.eqb (network spec) "none";
          msg := None |};
       {| conflict_spec := cuda_hijack;
          when := fun spec => negb (cuda spec);
          msg := None |} ].

(** Modelled from the spec: the conflict gate of the framework, which is
    not part of the recipe: "the Translator surfaces the first violated
    rule it encounters in declaration order and stops". *)
Definition checkAll (spec : Spec) : option ConflictRule :=
  find (fun r => conflict_spec r spec && when r spec) conflicts.

(** Modelled from the spec: the two phases of the translation, the
    conflict gate and then [cmake_args]: "Any violation aborts with the
    rule's message; no flags are produced". *)
Definition translate (fuel : nat) (spec : Spec) : M (list string) :=
  match checkAll spec with
  | Some r => raise (ConflictError (msg r))
  | None => cmake_args fuel spec
  end.

(** A frame for a fresh call, over a given environment. *)
Definition fresh (env : list (string * string)) : frame :=
  {| options := []; cmake_cxx_flags := []; os_environ := env |}.

(** The list a run returns, and the empty list for a run that does
    not return. *)
Definition returned_options (r : outcome (list string) * frame)
  : list string :=
  match fst r with
  | Returned opts => opts
  | _ => []
  end.

(** *** Powers of two *)

Definition power_of_two (n : Z) : Prop := exists k, 0 <= k /\ n = 2 ^ k.

(** *** Specs that differ from another in one variant *)

Definition set_network (v : string) (spec : Spec) : Spec :=
  {| network := v; gasnet_root := gasnet_root spec; conduit := conduit spec;
     gasnet_debug := gasnet_debug spec; shared := shared spec;
     bounds_checks := bounds_checks spec;
     privilege_checks := privilege_checks spec;
     enable_tls := enable_tls spec; output_level := output_level spec;
     spy := spy spec; cuda := cuda spec; cuda_hijack := cuda_hijack spec;
     cuda_arch := cuda_arch spec;
     cuda_unsupported_compiler := cuda_unsupported_compiler spec;
     fortran := fortran spec; hdf5 := hdf5 spec; hwloc := hwloc spec;
     kokkos := kokkos spec; bindings := bindings spec; libdl := libdl spec;
     openmp := openmp spec; papi := papi spec; python := python spec;
     zlib := zlib spec; redop_complex := redop_complex spec;
     max_dims := max_dims spec; max_fields := max_fields spec;
     native := native spec; build_type := build_type spec;
     nodes := nodes spec; kokkos_cxx := kokkos_cxx spec |}.

Definition set_gasnet_root (v : string) (spec : Spec) : Spec :=
  {| network := network spec; gasnet_root := v; conduit := conduit spec;
     gasnet_debug := gasnet_debug spec; shared := shared spec;
     bounds_checks := bounds_checks spec;
     privilege_checks := privilege_checks spec;
     enable_tls := enable_tls spec; output_level := output_level spec;
     spy := spy spec; cuda := cuda spec; cuda_hijack := cuda_hijack spec;
     cuda_arch := cuda_arch spec;
     cuda_unsupported_compiler := cuda_unsupported_compiler spec;
     fortran := fortran spec; hdf5 := hdf5 spec; hwloc := hwloc spec;
     kokkos := kokkos spec; bindings := bindings spec; libdl := libdl spec;
     openmp := openmp spec; papi := papi spec; python := python spec;
     zlib := zlib spec; redop_complex := redop_complex spec;
     max_dims := max_dims spec; max_fields := max_fields spec;
     native := native spec; build_type := build_type spec;
     nodes := nodes spec; kokkos_cxx := kokkos_cxx spec |}.

Definition set_conduit (v : string) (spec : Spec) : Spec :=
  {| network := network spec; gasnet_root := gasnet_root spec; conduit := v;
     gasnet_debug := gasnet_debug spec; shared := shared spec;
     bounds_checks := bounds_checks spec;
     privilege_checks := privilege_checks spec;
     enable_tls := enable_tls spec; output_level := output_level spec;
     spy := spy spec; cuda := cuda spec; cuda_hijack := cuda_hijack spec;
     cuda_arch := cuda_arch spec;
     cuda_unsupported_compiler := cuda_unsupported_compiler spec;
     fortran := fortran spec; hdf5 := hdf5 spec; hwloc := hwloc spec;
     kokkos := kokkos spec; bindings := bindings spec; libdl := libdl spec;
     openmp := openmp spec; papi := papi spec; python := python spec;
     zlib := zlib spec; redop_complex := redop_complex spec;
     max_dims := max_dims spec; max_fields := max_fields spec;
     native := native spec; build_type := build_type spec;
     nodes := nodes spec; kokkos_cxx := kokkos_cxx spec |}.

Definition set_cuda (v : bool) (spec : Spec) : Spec :=
  {| network := network spec; gasnet_root := gasnet_root spec;
     conduit := conduit spec; gasnet_debug := gasnet_debug spec;
     shared := shared spec; bounds_checks := bounds_checks spec;
     privilege_checks := privilege_checks spec;
     enable_tls := enable_tls spec; output_level := output_level spec;
     spy := spy spec; cuda := v; cuda_hijack := cuda_hijack spec;
     cuda_arch := cuda_arch spec;
     cuda_unsupported_compiler := cuda_unsupported_compiler spec;
     fortran := fortran spec; hdf5 := hdf5 spec; hwloc := hwloc spec;
     kokkos := kokkos spec; bindings := bindings spec; libdl := libdl spec;
     openmp := openmp spec; papi := papi spec; python := python spec;
     zlib := zlib spec; redop_complex := redop_complex spec;
     max_dims := max_dims spec; max_fields := max_fields spec;
     native := native spec; build_type := build_type spec;
     nodes := nodes spec; kokkos_cxx := kokkos_cxx spec |}.

Definition set_cuda_hijack (v : bool) (spec : Spec) : Spec :=
  {| network := network spec; gasnet_root := gasnet_root spec;
     conduit := conduit spec; gasnet_debug := gasnet_debug spec;
     shared := shared spec; bounds_checks := bounds_checks spec;
     privilege_checks := privilege_checks spec;
     enable_tls := enable_tls spec; output_level := output_level spec;
     spy := spy spec; cuda := cuda spec; cuda_hijack := v;
     cuda_arch := cuda_arch spec;
     cuda_unsupported_compiler := cuda_unsupported_compiler spec;
     fortran := fortran spec; hdf5 := hdf5 spec; hwloc := hwloc spec;
     kokkos := kokkos spec; bindings := bindings spec; libdl := libdl spec;
     openmp := openmp spec; papi := papi spec; python := python spec;
     zlib := zlib spec; redop_complex := redop_complex spec;
     max_dims := max_dims spec; max_fields := max_fields spec;
     native := native spec; build_type := build_type spec;
     nodes := nodes spec; kokkos_cxx := kokkos_cxx spec |}.

Definition set_cuda_arch (v : string) (spec : Spec) : Spec :=
  {| network := network spec; gasnet_root := gasnet_root spec;
     conduit := conduit spec; gasnet_debug := gasnet_debug spec;
     shared := shared spec; bounds_checks := bounds_checks spec;
     privilege_checks := privilege_checks spec;
     enable_tls := enable_tls spec; output_level := output_level spec;
     spy := spy spec; cuda := cuda spec; cuda_hijack := cuda_hijack spec;
     cuda_arch := v;
     cuda_unsupported_compiler := cuda_unsupported_compiler spec;
     fortran := fortran spec; hdf5 := hdf5 spec; hwloc := hwloc spec;
     kokkos := kokkos spec; bindings := bindings spec; libdl := libdl spec;
     openmp := openmp spec; papi := papi spec; python := python spec;
     zlib := zlib spec; redop_complex := redop_complex spec;
     max_dims := max_dims spec; max_fields := max_fields spec;
     native := native spec; build_type := build_type spec;
     nodes := nodes spec; kokkos_cxx := kokkos_cxx spec |}.

Definition set_fortran (v : bool) (spec : Spec) : Spec :=
  {| network := network spec; gasnet_root := gasnet_root spec;
     conduit := conduit spec; gasnet_debug := gasnet_debug spec;
     shared := shared spec; bounds_checks := bounds_checks spec;
     privilege_checks := privilege_checks spec;
     enable_tls := enable_tls spec; output_level := output_level spec;
     spy := spy spec; cuda := cuda spec; cuda_hijack := cuda_hijack spec;
     cuda_arch := cuda_arch spec;
     cuda_unsupported_compiler := cuda_unsupported_compiler spec;
     fortran := v; hdf5 := hdf5 spec; hwloc := hwloc spec;
     kokkos := kokkos spec; bindings := bindings spec; libdl := libdl spec;
     openmp := openmp spec; papi := papi spec; python := python spec;
     zlib := zlib spec; redop_complex := redop_complex spec;
     max_dims := max_dims spec; max_fields := max_fields spec;
     native := native spec; build_type := build_type spec;
     nodes := nodes spec; kokkos_cxx := kokkos_cxx spec |}.

Definition set_kokkos (v : bool) (spec : Spec) : Spec :=
  {| network := network spec; gasnet_root := gasnet_root spec;
     conduit := conduit spec; gasnet_debug := gasnet_debug spec;
     shared := shared spec; bounds_checks := bounds_checks spec;
     privilege_checks := privilege_checks spec;
     enable_tls := enable_tls spec; output_level := output_level spec;
     spy := spy spec; cuda := cuda spec; cuda_hijack := cuda_hijack spec;
     cuda_arch := cuda_arch spec;
     cuda_unsupported_compiler := cuda_unsupported_compiler spec;
     fortran := fortran spec; hdf5 := hdf5 spec; hwloc := hwloc spec;
     kokkos := v; bindings := bindings spec; libdl := libdl spec;
     openmp := openmp spec; papi := papi spec; python := python spec;
     zlib := zlib spec; redop_complex := redop_complex spec;
     max_dims := max_dims spec; max_fields := max_fields spec;
     native := native spec; build_type := build_type spec;
     nodes := nodes spec; kokkos_cxx := kokkos_cxx spec |}.

Definition set_bindings (v : bool) (spec : Spec) : Spec :=
  {| network := network spec; gasnet_root := gasnet_root spec;
     conduit := conduit spec; gasnet_debug := gasnet_debug spec;
     shared := shared spec; bounds_checks := bounds_checks spec;
     privilege_checks := privilege_checks spec;
     enable_tls := enable_tls spec; output_level := output_level spec;
     spy := spy spec; cuda := cuda spec; cuda_hijack := cuda_hijack spec;
     cuda_arch := cuda_arch spec;
     cuda_unsupported_compiler := cuda_unsupported_compiler spec;
     fortran := fortran spec; hdf5 := hdf5 spec; hwloc := hwloc spec;
     kokkos := kokkos spec; bindings := v; libdl := libdl spec;
     openmp := openmp spec; papi := papi spec; python := python spec;
     zlib := zlib spec; redop_complex := redop_complex spec;
     max_dims := max_dims spec; max_fields := max_fields spec;
     native := native spec; build_type := build_type spec;
     nodes := nodes spec; kokkos_cxx := kokkos_cxx spec |}.

Definition set_redop_complex (v : bool) (spec : Spec) : Spec :=
  {| network := network spec; gasnet_root := gasnet_root spec;
     conduit := conduit spec; gasnet_debug := gasnet_debug spec;
     shared := shared spec; bounds_checks := bounds_checks spec;
     privilege_checks := privilege_checks spec;
     enable_tls := enable_tls spec; output_level := output_level spec;
     spy := spy spec; cuda := cuda spec; cuda_hijack := cuda_hijack spec;
     cuda_arch := cuda_arch spec;
     cuda_unsupported_compiler := cuda_unsupported_compiler spec;
     fortran := fortran spec; hdf5 := hdf5 spec; hwloc := hwloc spec;
     kokkos := kokkos spec; bindings := bindings spec; libdl := libdl spec;
     openmp := openmp spec; papi := papi spec; python := python spec;
     zlib := zlib spec; redop_complex := v; max_dims := max_dims spec;
     max_fields := max_fields spec; native := native spec;
     build_type := build_type spec; nodes := nodes spec;
     kokkos_cxx := kokkos_cxx spec |}.

Definition set_max_dims (v : Z) (spec : Spec) : Spec :=
  {| network := network spec; gasnet_root := gasnet_root spec;
     conduit := conduit spec; gasnet_debug := gasnet_debug spec;
     shared := shared spec; bounds_checks := bounds_checks spec;
     privilege_checks := privilege_checks spec;
     enable_tls := enable_tls spec; output_level := output_level spec;
     spy := spy spec; cuda := cuda spec; cuda_hijack := cuda_hijack spec;
     cuda_arch := cuda_arch spec;
     cuda_unsupported_compiler := cuda_unsupported_compiler spec;
     fortran := fortran spec; hdf5 := hdf5 spec; hwloc := hwloc spec;
     kokkos := kokkos spec; bindings := bindings spec; libdl := libdl spec;
     openmp := openmp spec; papi := papi spec; python := python spec;
     zlib := zlib spec; redop_complex := redop_complex spec; max_dims := v;
     max_fields := max_fields spec; native := native spec;
     build_type := build_type spec; nodes := nodes spec;
     kokkos_cxx := kokkos_cxx spec |}.

Definition set_max_fields (v : Z) (spec : Spec) : Spec :=
  {| network := network spec; gasnet_root := gasnet_root spec;
     conduit := conduit spec; gasnet_debug := gasnet_debug spec;
     shared := shared spec; bounds_checks := bounds_checks spec;
     privilege_checks := privilege_checks spec;
     enable_tls := enable_tls spec; output_level := output_level spec;
     spy := spy spec; cuda := cuda spec; cuda_hijack := cuda_hijack spec;
     cuda_arch := cuda_arch spec;
     cuda_unsupported_compiler := cuda_unsupported_compiler spec;
     fortran := fortran spec; hdf5 := hdf5 spec; hwloc := hwloc spec;
     kokkos := kokkos spec; bindings := bindings spec; libdl := libdl spec;
     openmp := openmp spec; papi := papi spec; python := python spec;
     zlib := zlib spec; redop_complex := redop_complex spec;
     max_dims := max_dims spec; max_fields := v; native := native spec;
     build_type := build_type spec; nodes := nodes spec;
     kokkos_cxx := kokkos_cxx spec |}.

Definition set_build_type (v : string) (spec : Spec) : Spec :=
  {| network := network spec; gasnet_root := gasnet_root spec;
     conduit := conduit spec; gasnet_debug := gasnet_debug spec;
     shared := shared spec; bounds_checks := bounds_checks spec;
     privilege_checks := privilege_checks spec;
     enable_tls := enable_tls spec; output_level := output_level spec;
     spy := spy spec; cuda := cuda spec; cuda_hijack := cuda_hijack spec;
     cuda_arch := cuda_arch spec;
     cuda_unsupported_compiler := cuda_unsupported_compiler spec;
     fortran := fortran spec; hdf5 := hdf5 spec; hwloc := hwloc spec;
     kokkos := kokkos spec; bindings := bindings spec; libdl := libdl spec;
     openmp := openmp spec; papi := papi spec; python := python spec;
     zlib := zlib spec; redop_complex := redop_complex spec;
     max_dims := max_dims spec; max_fields := max_fields spec;
     native := native spec; build_type := v; nodes := nodes spec;
     kokkos_cxx := kokkos_cxx spec |}.

Definition set_nodes (v : list string) (spec : Spec) : Spec :=
  {| network := network spec; gasnet_root := gasnet_root spec;
     conduit := conduit spec; gasnet_debug := gasnet_debug spec;
     shared := shared spec; bounds_checks := bounds_checks spec;
     privilege_checks := privilege_checks spec;
     enable_tls := enable_tls spec; output_level := output_level spec;
     spy := spy spec; cuda := cuda spec; cuda_hijack := cuda_hijack spec;
     cuda_arch := cuda_arch spec;
     cuda_unsupported_compiler := cuda_unsupported_compiler spec;
     fortran := fortran spec; hdf5 := hdf5 spec; hwloc := hwloc spec;
     kokkos := kokkos spec; bindings := bindings spec; libdl := libdl spec;
     openmp := openmp spec; papi := papi spec; python := python spec;
     zlib := zlib spec; redop_complex := redop_complex spec;
     max_dims := max_dims spec; max_fields := max_fields spec;
     native := native spec; build_type := build_type spec; nodes := v;
     kokkos_cxx := kokkos_cxx spec |}.

Definition set_kokkos_cxx (v : string) (spec : Spec) : Spec :=
  {| network := network spec; gasnet_root := gasnet_root spec;
     conduit := conduit spec; gasnet_debug := gasnet_debug spec;
     shared := shared spec; bounds_checks := bounds_checks spec;
     privilege_checks := privilege_checks spec;
     enable_tls := enable_tls spec; output_level := output_level spec;
     spy := spy spec; cuda := cuda spec; cuda_hijack := cuda_hijack spec;
     cuda_arch := cuda_arch spec;
     cuda_unsupported_compiler := cuda_unsupported_compiler spec;
     fortran := fortran spec; hdf5 := hdf5 spec; hwloc := hwloc spec;
     kokkos := kokkos spec; bindings := bindings spec; libdl := libdl spec;
     openmp := openmp spec; papi := papi spec; python := python spec;
     zlib := zlib spec; redop_complex := redop_complex spec;
     max_dims := max_dims spec; max_fields := max_fields spec;
     native := native spec; build_type := build_type spec;
     nodes := nodes spec; kokkos_cxx := v |}.

(** *** The scenarios of the specification *)

(** [network=gasnet gasnet_root=none conduit=ibv] *)
Definition scenario_A : Spec :=
  set_conduit "ibv" (set_network "gasnet" default_spec).

(** [network=gasnet gasnet_root=/opt/gasnet conduit=udp] *)
Definition scenario_B : Spec :=
  set_conduit "udp"
    (set_gasnet_root "/opt/gasnet" (set_network "gasnet" default_spec)).

(** [max_fields=100] *)
Definition scenario_C : Spec := set_max_fields 100 default_spec.

(** [max_fields=0] *)
Definition scenario_D : Spec := set_max_fields 0 default_spec.

(** [+bindings ~redop_complex ~fortran] *)
Definition scenario_E : Spec := set_bindings true default_spec.

(** [+cuda ~cuda_hijack cuda_arch=80] *)
Definition scenario_F : Spec :=
  set_cuda_arch "80" (set_cuda true default_spec).

(** [+bindings +redop_complex +fortran] *)
Definition bindings_twice : Spec :=
  set_fortran true (set_redop_complex true (set_bindings true default_spec)).

(** [+kokkos], with the kokkos node in the DAG. *)
Definition with_kokkos : Spec :=
  set_nodes ["kokkos"]
    (set_kokkos_cxx "/usr/bin/g++" (set_kokkos true default_spec)).

(** [network=none gasnet_root=/opt/gasnet]: no declared conflict holds. *)
Definition stray_gasnet_root : Spec :=
  set_gasnet_root "/opt/gasnet" default_spec.

(** [build_type=Debug] *)
Definition debug_build : Spec := set_build_type "Debug" default_spec.

(* ================================================================== *)
(** ** The returned list, block by block

    What each block of [cmake_args] leaves in [options] on a run that
    raises nothing; [cmake_args_returns] below proves that the
    concatenation is the list the function returns. *)

(** Lines 200-223. *)
Definition transport_options (spec : Spec) : list string :=
  if String.eqb (network spec) "gasnet" then
    ["-DLegion_NETWORKS=gasnetex"]
    ++ (if negb (String.eqb (gasnet_root spec) "none")
        then [("-DGASNet_ROOT_DIR=" ++ gasnet_root spec)%string]
        else ["-DLegion_EMBED_GASNet=ON"])
    ++ [("-DGASNet_CONDUIT=" ++ conduit spec)%string]
    ++ (if gasnet_debug spec
        then ["-DLegion_EMBED_GASNet_CONFIGURE_ARGS=--enable-debug"]
        else [])
  else if String.eqb (network spec) "mpi" then ["-DLegion_NETWORKS=mpi"]
  else ["-DLegion_EMBED_GASNet=OFF"].

(** Lines 225-244. *)
Definition checks_options (spec : Spec) : list string :=
  (if shared spec then ["-DBUILD_SHARED_LIBS=ON"]
   else ["-DBUILD_SHARED_LIBS=OFF"])
  ++ (if bounds_checks spec then ["-DLegion_BOUNDS_CHECKS=ON"] else [])
  ++ (if privilege_checks spec then ["-DLegion_PRIVILEGE_CHECKS=ON"]
      else [])
  ++ (if enable_tls spec then ["-DLegion_ENABLE_TLS=ON"] else [])
  ++ (if has_node "output_level" spec
      then [("-DLegion_OUTPUT_LEVEL=" ++ upper (output_level spec))%string]
      else [])
  ++ (if spy spec then ["-DLegion_SPY=ON"] else []).

(** Lines 246-257. *)
Definition cuda_options (spec : Spec) : list string :=
  if cuda spec then
    ["-DLegion_USE_CUDA=ON"]
    ++ ["-DLegion_GPU_REDUCTIONS=ON"]
    ++ [("-DLegion_CUDA_ARCH=" ++ cuda_arch spec)%string]
    ++ (if cuda_hijack spec then ["-DLegion_HIJACK_CUDART=ON"]
        else ["-DLegion_HIJACK_CUDART=OFF"])
    ++ (if cuda_unsupported_compiler spec
        then ["-DCUDA_NVCC_FLAGS:STRING=--allow-unsupported-compiler"]
        else [])
  else [].

(** Lines 259-302. *)
Definition library_options (spec : Spec) : list string :=
  (if fortran spec then ["-DLegion_USE_Fortran=ON"] else [])
  ++ (if hdf5 spec then ["-DLegion_USE_HDF5=ON"] else [])
  ++ (if hwloc spec then ["-DLegion_USE_HWLOC=ON"] else [])
  ++ (if kokkos spec then ["-DLegion_USE_Kokkos=ON"] else [])
  ++ (if libdl spec then ["-DLegion_USE_LIBDL=ON"]
      else ["-DLegion_USE_LIBDL=OFF"])
  ++ (if openmp spec then ["-DLegion_USE_OpenMP=ON"] else [])
  ++ (if papi spec then ["-DLegion_USE_PAPI=ON"] else [])
  ++ (if python spec then ["-DLegion_USE_Python=ON"] else [])
  ++ (if zlib spec then ["-DLegion_USE_ZLIB=ON"]
      else ["-DLegion_USE_ZLIB=OFF"])
  ++ (if redop_complex spec then ["-DLegion_REDOP_COMPLEX=ON"] else []).

(** Lines 304-308. *)
Definition bindings_options (spec : Spec) : list string :=
  if bindings spec then
    ["-DLegion_BUILD_BINDINGS=ON"; "-DLegion_REDOP_COMPLEX=ON";
     "-DLegion_USE_Fortran=ON"]
  else [].

(** The value of [maxfields] at line 330. *)
Definition normalized_max_fields (v : Z) : Z :=
  let v := if v <=? 0 then 512 else v in
  if negb (Z.land v (v - 1) =? 0) then Z.shiftl (2 ^ Z.log2 v) 1 else v.

(** Lines 317-334. *)
Definition limits_options (spec : Spec) : list string :=
  [("-DLegion_MAX_DIM=" ++ fmt_d (max_dims spec))%string]
  ++ [("-DLegion_MAX_FIELDS="
       ++ fmt_d (normalized_max_fields (max_fields spec)))%string]
  ++ (if native spec then ["-DBUILD_MARCH:STRING=native"] else []).

Definition all_options (spec : Spec) : list string :=
  transport_options spec
  ++ checks_options spec
  ++ cuda_options spec
  ++ library_options spec
  ++ bindings_options spec
  ++ limits_options spec.

(** Lines 310-315: what is left in [cmake_cxx_flags]. *)
Definition debug_cxx_flags (spec : Spec) : list string :=
  if String.eqb (build_type spec) "Debug"
  then ["-DDEBUG_REALM"; "-DDEBUG_LEGION"; "-ggdb"]
  else [].

(** Line 274: the binding put into [os.environ]. *)
Definition kokkos_environ (spec : Spec) : list (string * string) :=
  if kokkos spec then [("KOKKOS_CXX_COMPILER", kokkos_cxx spec)] else [].

(* ================================================================== *)
(** ** The declarations around [cmake_args] *)

(** Lines 81-89. [isdir] is [os.path.isdir] on the file system of the
    call; the second component is what the call prints, line by line. *)
Definition validate_gasnet_root (isdir : string -> bool) (value : string)
  : bool * list string :=
  if String.eqb value "none" then (true, [])
  else if negb (isdir value) then
    (false,
     [("gasnet_root: " ++ value ++ " -- no such directory.")%string])
  else (true, []).

(** Line 72. *)
Definition network_values : list string := ["gasnet"; "mpi"; "none"].

(** Line 99. *)
Definition conduit_values : list string :=
  ["aries"; "ibv"; "udp"; "mpi"; "ucx"; "none"].


(** Line 50. *)
Definition cuda_arch_list : list string := ["60"; "70"; "75"; "80"].

(** One [depends_on(dep, when=...)] directive; the condition reads the
    compiler of the build and the spec. *)
Record Dependency : Type := {
  dep : string;
  dep_when : string -> Spec -> bool
}.

(** Lines 51-57: the two directives that the loop declares for each
    architecture, [when='%gcc+kokkos+cuda cuda_arch=N'] and
    [when='%clang+kokkos+cuda cuda_arch=N'], and the directive for
    [+kokkos~cuda]. *)
Definition kokkos_depends : list Dependency :=
  flat_map
    (fun nvarch =>
       [ {| dep := ("kokkos@3.3.01+cuda+cuda_lambda+wrapper cuda_arch="
                    ++ nvarch)%string;
            dep_when := fun compiler spec =>
              String.eqb compiler "gcc" && kokkos spec && cuda spec
              && String.eqb (cuda_arch spec) nvarch |};
         {| dep := ("kokkos@3.3.01+cuda+cuda_lambda~wrapper cuda_arch="
                    ++ nvarch)%string;
            dep_when := fun compiler spec =>
              String.eqb compiler "clang" && kokkos spec && cuda spec
              && String.eqb (cuda_arch spec) nvarch |} ])
    cuda_arch_list
  ++ [ {| dep := "kokkos@3.3.01~cuda";
          dep_when := fun _ spec => kokkos spec && negb (cuda spec) |} ].

(** The Kokkos requirements of lines 51-57 whose condition holds. *)
Definition kokkos_required (compiler : string) (spec : Spec)
  : list string :=
  map dep (filter (fun d => dep_when d compiler spec) kokkos_depends).

(** The text of an option before its first [=]: the CMake variable, with
    its [-D] and its type when it has one. *)
Fixpoint cmake_name (o : string) : string :=
  match o with
  | EmptyString => EmptyString
  | String c o' =>
      if Ascii.eqb c "=" then EmptyString else String c (cmake_name o')
  end.

(** Whether an option has an [=]. *)
Fixpoint has_equals (o : string) : bool :=
  match o with
  | EmptyString => false
  | String c o' => Ascii.eqb c "=" || has_equals o'
  end.

(** *** More specs *)

(** [network=mpi] *)
Definition over_mpi : Spec := set_network "mpi" default_spec.

(** [network=gasnet conduit=none]: the conflict of line 103. *)
Definition gasnet_without_conduit : Spec :=
  set_network "gasnet" default_spec.

(** [network=none conduit=ibv]: a conflict of line 111. *)
Definition conduit_without_gasnet : Spec :=
  set_conduit "ibv" default_spec.

(** [+cuda_hijack ~cuda]: the conflict of line 152. *)
Definition hijack_without_cuda : Spec :=
  set_cuda_hijack true default_spec.

(** [+kokkos +cuda cuda_arch=80], with the kokkos node. *)
Definition kokkos_on_cuda : Spec :=
  set_cuda_arch "80" (set_cuda true with_kokkos).

(* ================================================================== *)
(** ** What one statement does to the frame *)

(** [runs m a o c e]: from every frame, [m] returns [a], having appended
    [o] to [options] and [c] to [cmake_cxx_flags] and put the bindings [e]
    in front of the environment. *)
Definition runs {A} (m : M A) (a : A) (o c : list string)
    (e : list (string * string)) : Prop :=
  forall opts cxx env,
    m {| options := opts; cmake_cxx_flags := cxx; os_environ := env |}
    = (Returned a,
       {| options := opts ++ o;
          cmake_cxx_flags := cxx ++ c;
          os_environ := e ++ env |}).

Lemma runs_ret {A} (a : A) : runs (ret a) a [] [] [].
Proof.
  intros opts cxx env. unfold ret. now rewrite !app_nil_r.
Qed.

Lemma runs_pass : runs pass tt [] [] [].
Proof. exact (runs_ret tt). Qed.

Lemma runs_options_append x : runs (options_append x) tt [x] [] [].
Proof.
  intros opts cxx env. unfold options_append. cbn. now rewrite app_nil_r.
Qed.

Lemma runs_cmake_cxx_flags_extend l :
  runs (cmake_cxx_flags_extend l) tt [] l [].
Proof.
  intros opts cxx env. unfold cmake_cxx_flags_extend. cbn.
  now rewrite app_nil_r.
Qed.

Lemma runs_environ_set k v : runs (environ_set k v) tt [] [] [(k, v)].
Proof.
  intros opts cxx env. unfold environ_set. cbn. now rewrite !app_nil_r.
Qed.

Lemma runs_bind {A B} (m : M A) (k : A -> M B) a b o1 c1 e1 o2 c2 e2 :
  runs m a o1 c1 e1 ->
  runs (k a) b o2 c2 e2 ->
  runs (bind m k) b (o1 ++ o2) (c1 ++ c2) (e2 ++ e1).
Proof.
  intros Hm Hk opts cxx env. unfold bind. rewrite Hm, Hk.
  now rewrite !app_assoc.
Qed.

Lemma runs_if {A} (b : bool) (m1 m2 : M A) a1 a2 o1 c1 e1 o2 c2 e2 :
  runs m1 a1 o1 c1 e1 ->
  runs m2 a2 o2 c2 e2 ->
  runs (if b then m1 else m2) (if b then a1 else a2)
       (if b then o1 else o2) (if b then c1 else c2)
       (if b then e1 else e2).
Proof. now destruct b. Qed.

Lemma if_same {A} (b : bool) (x : A) : (if b then x else x) = x.
Proof. now destruct b. Qed.

(** One step of a sequence. *)
Lemma bind_step {A B} (m : M A) (k : A -> M B) a o c e opts cxx env R :
  runs m a o c e ->
  k a {| options := opts ++ o;
         cmake_cxx_flags := cxx ++ c;
         os_environ := e ++ env |} = R ->
  bind m k {| options := opts; cmake_cxx_flags := cxx; os_environ := env |}
  = R.
Proof. intros Hm <-. unfold bind. now rewrite Hm. Qed.

(* ================================================================== *)
(** ** Clearing the lowest set bit *)

Module Bits.

(** [n & (n - 1)] stays below [n] when [n] is positive. *)
Lemma land_pred_le n : 0 < n -> Z.land n (n - 1) <= n - 1.
Proof.
  intros Hn.
  rewrite Z.land_comm.
  pose proof (Z.sub_land_same_l (n - 1) n) as H.
  assert (0 <= Z.land (n - 1) (Z.lnot n)) by (apply Z.land_nonneg; lia).
  lia.
Qed.

Lemma land_pred_nonneg n : 0 < n -> 0 <= Z.land n (n - 1).
Proof. intros Hn. apply Z.land_nonneg. lia. Qed.

(** A set bit of a non-negative integer bounds it from below. *)
Lemma testbit_true_ge a k : 0 <= a -> 0 <= k -> Z.testbit a k = true -> 2 ^ k <= a.
Proof.
  intros Ha Hk Hb.
  destruct (Z.eq_dec a 0) as [->|Hne].
  - now rewrite Z.bits_0 in Hb.
  - destruct (Z.lt_ge_cases (Z.log2 a) k) as [Hlt|Hge].
    + rewrite (Z.bits_above_log2 a k Ha Hlt) in Hb. discriminate.
    + transitivity (2 ^ Z.log2 a).
      * apply Z.pow_le_mono_r; lia.
      * apply Z.log2_spec. lia.
Qed.

(** A power of two has no bit in common with its predecessor. *)
Lemma land_pow2_pred k : 0 <= k -> Z.land (2 ^ k) (2 ^ k - 1) = 0.
Proof.
  intros Hk.
  replace (2 ^ k - 1) with (Z.ones k) by (rewrite Z.ones_equiv; lia).
  rewrite Z.land_ones by assumption.
  apply Z.mod_same. apply Z.pow_nonzero; lia.
Qed.

(** Above a power of two, the top bit survives [n & (n - 1)]. *)
Lemma land_pred_keeps_top n :
  0 < n -> n <> 2 ^ Z.log2 n -> 2 ^ Z.log2 n <= Z.land n (n - 1).
Proof.
  intros Hn Hne.
  pose proof (Z.log2_spec n Hn) as [Hlo Hhi].
  pose proof (Z.log2_nonneg n) as Hk.
  apply testbit_true_ge; [now apply land_pred_nonneg | assumption |].
  rewrite Z.land_spec, (Z.bit_log2 n Hn). cbn.
  assert (Hlog : Z.log2 (n - 1) = Z.log2 n).
  { apply Z.log2_unique; [assumption | lia]. }
  rewrite <- Hlog. apply Z.bit_log2. 
  assert (0 < 2 ^ Z.log2 n) by (apply Z.pow_pos_nonneg; lia). lia.
Qed.

Lemma land_pred_zero n :
  0 < n -> Z.land n (n - 1) = 0 -> n = 2 ^ Z.log2 n.
Proof.
  intros Hn Hz.
  destruct (Z.eq_dec n (2 ^ Z.log2 n)) as [|Hne]; [assumption|].
  pose proof (land_pred_keeps_top n Hn Hne).
  assert (0 < 2 ^ Z.log2 n)
    by (apply Z.pow_pos_nonneg; [lia | apply Z.log2_nonneg]).
  lia.
Qed.

Lemma land_pred_log2 n :
  0 < n -> Z.land n (n - 1) <> 0 ->
  0 < Z.land n (n - 1) < n /\ Z.log2 (Z.land n (n - 1)) = Z.log2 n.
Proof.
  intros Hn Hnz.
  pose proof (Z.log2_spec n Hn) as [Hlo Hhi].
  pose proof (Z.log2_nonneg n) as Hk.
  pose proof (land_pred_le n Hn) as Hle.
  pose proof (land_pred_nonneg n Hn) as H0.
  assert (Hne : n <> 2 ^ Z.log2 n).
  { intros E. apply Hnz. rewrite E at 1. rewrite E at 2.
    now apply land_pow2_pred. }
  pose proof (land_pred_keeps_top n Hn Hne) as Htop.
  split; [lia|].
  apply Z.log2_unique; [assumption | lia].
Qed.

Lemma power_of_two_pos n : power_of_two n -> 0 < n.
Proof. intros (k & Hk & ->). apply Z.pow_pos_nonneg; lia. Qed.

Lemma power_of_two_log2 n : power_of_two n -> n = 2 ^ Z.log2 n.
Proof. intros (k & Hk & ->). now rewrite Z.log2_pow2. Qed.

Lemma power_of_two_land n : power_of_two n -> Z.land n (n - 1) = 0.
Proof. intros (k & Hk & ->). now apply land_pow2_pred. Qed.

Lemma land_zero_power_of_two n :
  0 < n -> Z.land n (n - 1) = 0 -> power_of_two n.
Proof.
  intros Hn Hz. exists (Z.log2 n). split; [apply Z.log2_nonneg|].
  now apply land_pred_zero.
Qed.

(** The loop of lines 327-328 ends on the top bit of its argument. *)
Lemma while_clear_lowest_bit_runs fuel n :
  0 < n -> (Z.to_nat n <= fuel)%nat ->
  runs (while_clear_lowest_bit fuel n) (2 ^ Z.log2 n) [] [] [].
Proof.
  revert n. induction fuel as [|fuel IH]; intros n Hn Hfuel.
  - lia.
  - cbn [while_clear_lowest_bit].
    destruct (Z.eqb_spec (Z.land n (n - 1)) 0) as [Hz|Hnz]; cbn [negb].
    + rewrite <- (land_pred_zero n Hn Hz). apply runs_ret.
    + destruct (land_pred_log2 n Hn Hnz) as [Hlt Hlog].
      rewrite <- Hlog. apply IH; lia.
Qed.

End Bits.

(* ================================================================== *)
(** ** The run of [cmake_args] *)

(** Runs a block whose tests are decided. *)
Ltac run_block :=
  unfold bind, options_append, environ_set, cmake_cxx_flags_extend,
    pass, ret, raise;
  cbn [options cmake_cxx_flags os_environ negb];
  rewrite <- ?app_assoc, ?app_nil_r; reflexivity.

Section Run.

Variable fuel : nat.
Variable spec : Spec.

(** The transport block, lines 200-223, when its guards pass. *)
Lemma transport_block_runs :
  String.eqb (network spec) "gasnet"
  || String.eqb (gasnet_root spec) "none" = true ->
  runs
    (if String.eqb (network spec) "gasnet" then
       bind (options_append "-DLegion_NETWORKS=gasnetex") (fun _ =>
       bind (if negb (String.eqb (gasnet_root spec) "none") then
               options_append ("-DGASNet_ROOT_DIR=" ++ gasnet_root spec)%string
             else options_append "-DLegion_EMBED_GASNet=ON") (fun _ =>
       bind (options_append ("-DGASNet_CONDUIT=" ++ conduit spec)%string)
         (fun _ =>
            if gasnet_debug spec then
              options_append
                "-DLegion_EMBED_GASNet_CONFIGURE_ARGS=--enable-debug"
            else pass)))
     else if String.eqb (network spec) "mpi" then
       bind (options_append "-DLegion_NETWORKS=mpi") (fun _ =>
         if negb (String.eqb (gasnet_root spec) "none") then
           raise (InstallError gasnet_root_msg)
         else pass)
     else
       bind (if negb (String.eqb (gasnet_root spec) "none") then
               raise (InstallError gasnet_root_msg)
             else pass) (fun _ =>
         options_append "-DLegion_EMBED_GASNet=OFF"))
    tt (transport_options spec) [] [].
Proof.
  unfold transport_options. intros Hok opts cxx env.
  destruct (String.eqb (network spec) "gasnet").
  - destruct (String.eqb (gasnet_root spec) "none"),
      (gasnet_debug spec); run_block.
  - cbn in Hok. rewrite Hok. cbn [negb].
    destruct (String.eqb (network spec) "mpi"); run_block.
Qed.

(** The Kokkos block, lines 271-274, when the DAG has the node. *)
Lemma kokkos_block_runs :
  negb (kokkos spec) || has_node "kokkos" spec = true ->
  runs
    (if kokkos spec then
       bind (options_append "-DLegion_USE_Kokkos=ON") (fun _ =>
       bind (spec_kokkos_cxx spec) (fun cxx =>
         environ_set "KOKKOS_CXX_COMPILER" cxx))
     else pass)
    tt (if kokkos spec then ["-DLegion_USE_Kokkos=ON"] else []) []
    (kokkos_environ spec).
Proof.
  unfold kokkos_environ, spec_kokkos_cxx. intros Hok opts cxx env.
  destruct (kokkos spec).
  - cbn in Hok. rewrite Hok. run_block.
  - run_block.
Qed.

(** Lines 321-329 leave the normalized value in [maxfields]. *)
Lemma max_fields_block_runs :
  enough_fuel fuel spec ->
  runs
    (if negb
          (Z.land (if max_fields spec <=? 0 then 512 else max_fields spec)
             ((if max_fields spec <=? 0 then 512 else max_fields spec) - 1)
           =? 0)
     then
       bind (while_clear_lowest_bit fuel
               (if max_fields spec <=? 0 then 512 else max_fields spec))
         (fun maxfields => ret (Z.shiftl maxfields 1))
     else ret (if max_fields spec <=? 0 then 512 else max_fields spec))
    (normalized_max_fields (max_fields spec)) [] [] [].
Proof.
  unfold enough_fuel, normalized_max_fields. intros Hfuel. cbv zeta.
  destruct (Z.leb_spec (max_fields spec) 0) as [Hle|Hgt].
  - cbn. apply runs_ret.
  - destruct (negb _).
    + intros opts cxx env. unfold bind.
      rewrite (Bits.while_clear_lowest_bit_runs fuel _ Hgt Hfuel).
      unfold ret. cbn [app]. now rewrite !app_nil_r.
    + apply runs_ret.
Qed.

End Run.

(** Finds what a statement does, by its shape. *)
Ltac solve_runs :=
  cbv beta;
  lazymatch goal with
  | |- runs (bind _ _) _ _ _ _ =>
      eapply runs_bind; [ solve_runs | solve_runs ]
  | |- runs (if _ then _ else _) _ _ _ _ =>
      first [ apply transport_block_runs; assumption
            | apply kokkos_block_runs; assumption
            | apply max_fields_block_runs; assumption
            | eapply runs_if; [ solve_runs | solve_runs ] ]
  | |- runs (options_append _) _ _ _ _ => apply runs_options_append
  | |- runs (cmake_cxx_flags_extend _) _ _ _ _ =>
      apply runs_cmake_cxx_flags_extend
  | |- runs (environ_set _ _) _ _ _ _ => apply runs_environ_set
  | |- runs pass _ _ _ _ => apply runs_pass
  | |- runs (ret _) _ _ _ _ => apply runs_ret
  end.

Ltac step := eapply bind_step; [ solve [ solve_runs ] | cbv beta ].

(** On a spec that passes the guards, [cmake_args] returns
    [all_options], leaves the debug flags in [cmake_cxx_flags] and the
    Kokkos binding in the environment. *)
Lemma cmake_args_returns fuel spec st :
  cmake_args_ok spec = true ->
  enough_fuel fuel spec ->
  cmake_args fuel spec st
  = (Returned (all_options spec),
     {| options := all_options spec;
        cmake_cxx_flags := debug_cxx_flags spec;
        os_environ := kokkos_environ spec ++ os_environ st |}).
Proof.
  intros Hok Hfuel.
  apply andb_prop in Hok. destruct Hok as [Hnet Hkok].
  unfold cmake_args. cbv zeta.
  unfold bind at 1. unfold set_cmake_cxx_flags at 1.
  unfold bind at 1. unfold set_options at 1. cbn [options cmake_cxx_flags os_environ].
  repeat step.
  unfold get_options. cbn [options].
  unfold all_options, checks_options, cuda_options, library_options,
    bindings_options, limits_options, debug_cxx_flags.
  repeat (progress (rewrite ?if_same, ?app_nil_r; cbn [app])).
  rewrite <- !app_assoc.
  reflexivity.
Qed.

(** When a guard of the transport block fails, [cmake_args] raises
    [InstallError] and the environment is as it was. *)
Lemma cmake_args_install_error fuel spec st :
  String.eqb (network spec) "gasnet" = false ->
  String.eqb (gasnet_root spec) "none" = false ->
  exists st',
    cmake_args fuel spec st = (Raised (InstallError gasnet_root_msg), st')
    /\ os_environ st' = os_environ st.
Proof.
  intros Hnet Hroot.
  unfold cmake_args. cbv zeta.
  unfold bind at 1. unfold set_cmake_cxx_flags at 1.
  unfold bind at 1. unfold set_options at 1.
  cbn [options cmake_cxx_flags os_environ].
  unfold bind at 1. rewrite Hnet, Hroot. cbn [negb].
  destruct (String.eqb (network spec) "mpi");
    unfold bind, options_append, raise;
    cbn [options cmake_cxx_flags os_environ];
    eexists; split; reflexivity.
Qed.

(** When the transport block passes and [+kokkos] finds no kokkos node,
    [cmake_args] raises [KeyError] before it writes the environment. *)
Lemma cmake_args_key_error fuel spec st :
  String.eqb (network spec) "gasnet"
  || String.eqb (gasnet_root spec) "none" = true ->
  kokkos spec = true ->
  has_node "kokkos" spec = false ->
  exists st',
    cmake_args fuel spec st = (Raised (KeyError "kokkos"), st')
    /\ os_environ st' = os_environ st.
Proof.
  intros Hnet Hkok Hnode.
  unfold cmake_args. cbv zeta.
  unfold bind at 1. unfold set_cmake_cxx_flags at 1.
  unfold bind at 1. unfold set_options at 1.
  cbn [options cmake_cxx_flags os_environ].
  eexists. split.
  - repeat step.
    unfold bind at 1. rewrite Hkok.
    unfold spec_kokkos_cxx. rewrite Hnode.
    unfold bind, options_append, raise.
    cbn [options cmake_cxx_flags os_environ].
    reflexivity.
  - cbn [os_environ]. now rewrite !if_same.
Qed.

(** [cmake_args] returns or raises according to [cmake_args_ok]; a run
    that raises leaves the environment untouched. *)
Lemma cmake_args_raises fuel spec st :
  cmake_args_ok spec = false ->
  exists e st',
    cmake_args fuel spec st = (Raised e, st')
    /\ os_environ st' = os_environ st
    /\ (e = InstallError gasnet_root_msg \/ e = KeyError "kokkos").
Proof.
  unfold cmake_args_ok. intros Hno.
  destruct (String.eqb (network spec) "gasnet") eqn:Hnet;
    destruct (String.eqb (gasnet_root spec) "none") eqn:Hroot;
    cbn [orb andb] in Hno.
  1-3: destruct (kokkos spec) eqn:Hkok; cbn [negb orb] in Hno;
         try discriminate;
       destruct (cmake_args_key_error fuel spec st) as (st' & Hrun & Henv);
         [ now rewrite Hnet, Hroot | assumption | assumption | ];
       exists (KeyError "kokkos"), st'; auto.
  destruct (cmake_args_install_error fuel spec st Hnet Hroot)
    as (st' & Hrun & Henv).
  exists (InstallError gasnet_root_msg), st'. auto.
Qed.

(* ================================================================== *)
(** ** Counting options in the returned list *)

Lemma occurrences_in x l : (0 < occurrences x l)%nat -> In x l.
Proof.
  unfold occurrences. intros Hpos.
  destruct (filter (String.eqb x) l) as [|y r] eqn:Hf; [cbn in Hpos; lia|].
  assert (Hin : In y (filter (String.eqb x) l)) by (rewrite Hf; now left).
  apply filter_In in Hin. destruct Hin as [Hin Heq].
  apply String.eqb_eq in Heq. now subst y.
Qed.

Lemma occurrences_not_in x l : occurrences x l = 0%nat -> ~ In x l.
Proof.
  unfold occurrences. intros Hz Hin.
  assert (Hf : In x (filter (String.eqb x) l)).
  { apply filter_In. split; [assumption | apply String.eqb_refl]. }
  destruct (filter (String.eqb x) l); [contradiction | discriminate].
Qed.

Lemma prefix_append p x : String.prefix p (p ++ x)%string = true.
Proof.
  induction p as [|a p IH]; cbn.
  - now destruct x.
  - destruct (ascii_dec a a) as [_|Hne]; [exact IH | now destruct Hne].
Qed.

Lemma filter_prefix_keep p x :
  filter (String.prefix p) [(p ++ x)%string] = [(p ++ x)%string].
Proof. cbn [filter]. now rewrite prefix_append. Qed.

(** Decides every test left in the goal, one at a time. *)
Ltac decide_tests :=
  repeat match goal with
         | |- context [if ?c then _ else _] => destruct c
         end;
  reflexivity.

(** Splits a filter over a concatenation and drops the blocks and the
    single options that the filter does not keep. *)
Ltac drop_filters :=
  rewrite ?filter_app;
  repeat match goal with
         | |- context [filter ?p (if ?b then ?x else ?y)] =>
             replace (filter p (if b then x else y)) with (@nil string)
               by (clear; decide_tests)
         | |- context [filter ?p [?x]] =>
             replace (filter p [x]) with (@nil string) by reflexivity
         end;
  rewrite ?filter_prefix_keep;
  repeat rewrite app_nil_l;
  rewrite ?app_nil_r.

(** The same on [all_options]. *)
Ltac keep_blocks :=
  unfold with_prefix, occurrences, all_options, transport_options,
    checks_options, cuda_options, library_options, bindings_options,
    limits_options;
  drop_filters.

(** Decides the tests of the blocks that are left. *)
Ltac settle :=
  repeat match goal with
         | |- context [if ?c then _ else _] => destruct c
         end;
  drop_filters;
  reflexivity.

(** Rewrites the run of an accepted spec into its returned list. *)
Ltac returns Hok Hfuel :=
  rewrite (cmake_args_returns _ _ _ Hok Hfuel);
  eexists; eexists; split; [reflexivity|].

(* ================================================================== *)
(** ** The language-bindings block *)

(** C4. On every spec that [cmake_args] accepts and that has
    [bindings] on, the returned list holds the bindings flag, the
    complex-reduction flag =ON and the Fortran flag =ON, whatever the
    [redop_complex] and [fortran] variants are. *)
Theorem bindings_force_redop_and_fortran fuel spec st :
  cmake_args_ok spec = true ->
  enough_fuel fuel spec ->
  bindings spec = true ->
  exists opts st',
    cmake_args fuel spec st = (Returned opts, st')
    /\ In "-DLegion_BUILD_BINDINGS=ON" opts
    /\ In "-DLegion_REDOP_COMPLEX=ON" opts
    /\ In "-DLegion_USE_Fortran=ON" opts.
Proof.
  intros Hok Hfuel Hb. returns Hok Hfuel.
  repeat split; apply occurrences_in; keep_blocks; rewrite Hb.
  - cbn. lia.
  - destruct (redop_complex spec); cbn; lia.
  - destruct (fortran spec); cbn; lia.
Qed.

Lemma bindings_force_redop_and_fortran_witness :
  exists opts st',
    cmake_args 512 scenario_E (fresh []) = (Returned opts, st')
    /\ In "-DLegion_BUILD_BINDINGS=ON" opts
    /\ In "-DLegion_REDOP_COMPLEX=ON" opts
    /\ In "-DLegion_USE_Fortran=ON" opts.
Proof.
  apply (bindings_force_redop_and_fortran 512 scenario_E (fresh [])).
  - reflexivity.
  - unfold enough_fuel. cbn. lia.
  - reflexivity.
Defined.

(** C10. With [bindings] on, the forced flags come on top of those of
    the feature blocks: [-DLegion_REDOP_COMPLEX=ON] occurs exactly twice
    when [redop_complex] is on as well, and [-DLegion_USE_Fortran=ON]
    exactly twice when [fortran] is on as well. *)
Theorem bindings_duplicate_flags fuel spec st :
  cmake_args_ok spec = true ->
  enough_fuel fuel spec ->
  bindings spec = true ->
  exists opts st',
    cmake_args fuel spec st = (Returned opts, st')
    /\ (redop_complex spec = true ->
        occurrences "-DLegion_REDOP_COMPLEX=ON" opts = 2%nat)
    /\ (fortran spec = true ->
        occurrences "-DLegion_USE_Fortran=ON" opts = 2%nat).
Proof.
  intros Hok Hfuel Hb. returns Hok Hfuel.
  split; intros Hv; keep_blocks; rewrite Hb, Hv; reflexivity.
Qed.

Lemma bindings_duplicate_flags_witness :
  exists opts st',
    cmake_args 512 bindings_twice (fresh []) = (Returned opts, st')
    /\ (redop_complex bindings_twice = true ->
        occurrences "-DLegion_REDOP_COMPLEX=ON" opts = 2%nat)
    /\ (fortran bindings_twice = true ->
        occurrences "-DLegion_USE_Fortran=ON" opts = 2%nat).
Proof.
  apply (bindings_duplicate_flags 512 bindings_twice (fresh [])).
  - reflexivity.
  - unfold enough_fuel. cbn. lia.
  - reflexivity.
Defined.

(* ================================================================== *)
(** ** The transport block *)

(** C5. On every accepted spec with [network=gasnet] the returned list
    holds [-DLegion_NETWORKS=gasnetex] and one conduit flag, the one of
    the chosen conduit; with a [gasnet_root] other than "none" it holds
    one root-path flag, pointing at that directory, and no embed flag;
    with [gasnet_root=none] it holds the embed flag once and no
    root-path flag. *)
Theorem gasnet_transport_flags fuel spec st :
  cmake_args_ok spec = true ->
  enough_fuel fuel spec ->
  network spec = "gasnet" ->
  exists opts st',
    cmake_args fuel spec st = (Returned opts, st')
    /\ In "-DLegion_NETWORKS=gasnetex" opts
    /\ with_prefix "-DGASNet_CONDUIT=" opts
       = [("-DGASNet_CONDUIT=" ++ conduit spec)%string]
    /\ (gasnet_root spec <> "none" ->
        with_prefix "-DGASNet_ROOT_DIR=" opts
        = [("-DGASNet_ROOT_DIR=" ++ gasnet_root spec)%string]
        /\ occurrences "-DLegion_EMBED_GASNet=ON" opts = 0%nat)
    /\ (gasnet_root spec = "none" ->
        with_prefix "-DGASNet_ROOT_DIR=" opts = []
        /\ occurrences "-DLegion_EMBED_GASNet=ON" opts = 1%nat).
Proof.
  intros Hok Hfuel Hnet. returns Hok Hfuel.
  split; [|split; [|split]].
  - apply occurrences_in. keep_blocks.
    rewrite Hnet, String.eqb_refl. cbn. lia.
  - keep_blocks. rewrite Hnet, String.eqb_refl. settle.
  - intros Hroot. apply String.eqb_neq in Hroot.
    split; keep_blocks; rewrite Hnet, String.eqb_refl, Hroot;
      cbn [negb]; settle.
  - intros Hroot.
    split; keep_blocks; rewrite Hnet, Hroot, !String.eqb_refl;
      cbn [negb]; settle.
Qed.

Lemma gasnet_transport_flags_witness :
  exists opts st',
    cmake_args 512 scenario_B (fresh []) = (Returned opts, st')
    /\ In "-DLegion_NETWORKS=gasnetex" opts
    /\ with_prefix "-DGASNet_CONDUIT=" opts
       = [("-DGASNet_CONDUIT=" ++ conduit scenario_B)%string]
    /\ (gasnet_root scenario_B <> "none" ->
        with_prefix "-DGASNet_ROOT_DIR=" opts
        = [("-DGASNet_ROOT_DIR=" ++ gasnet_root scenario_B)%string]
        /\ occurrences "-DLegion_EMBED_GASNet=ON" opts = 0%nat)
    /\ (gasnet_root scenario_B = "none" ->
        with_prefix "-DGASNet_ROOT_DIR=" opts = []
        /\ occurrences "-DLegion_EMBED_GASNet=ON" opts = 1%nat).
Proof.
  apply (gasnet_transport_flags 512 scenario_B (fresh [])).
  - reflexivity.
  - unfold enough_fuel. cbn. lia.
  - reflexivity.
Defined.

(** Scenario A: embed flag and [conduit=ibv], no root-path flag. *)
Example scenario_A_options :
  let opts := returned_options (cmake_args 512 scenario_A (fresh [])) in
  with_prefix "-DLegion_NETWORKS=" opts = ["-DLegion_NETWORKS=gasnetex"]
  /\ with_prefix "-DLegion_EMBED_GASNet" opts = ["-DLegion_EMBED_GASNet=ON"]
  /\ with_prefix "-DGASNet_" opts = ["-DGASNet_CONDUIT=ibv"].
Proof. vm_compute. repeat split. Qed.

(** Scenario B: root path [/opt/gasnet] and [conduit=udp], no embed
    flag. *)
Example scenario_B_options :
  let opts := returned_options (cmake_args 512 scenario_B (fresh [])) in
  with_prefix "-DLegion_NETWORKS=" opts = ["-DLegion_NETWORKS=gasnetex"]
  /\ with_prefix "-DLegion_EMBED_GASNet" opts = []
  /\ with_prefix "-DGASNet_" opts
     = ["-DGASNet_ROOT_DIR=/opt/gasnet"; "-DGASNet_CONDUIT=udp"].
Proof. vm_compute. repeat split. Qed.

(* ================================================================== *)
(** ** The CUDA block *)

(** C6. On every accepted spec, with [cuda] on the returned list holds
    [-DLegion_USE_CUDA=ON], [-DLegion_GPU_REDUCTIONS=ON], the
    architecture flag with the chosen [cuda_arch], and one hijack flag,
    =ON when [cuda_hijack] is on and =OFF otherwise; with [cuda] off it
    holds none of the four. *)
Theorem cuda_flags fuel spec st :
  cmake_args_ok spec = true ->
  enough_fuel fuel spec ->
  exists opts st',
    cmake_args fuel spec st = (Returned opts, st')
    /\ with_prefix "-DLegion_USE_CUDA=" opts
       = (if cuda spec then ["-DLegion_USE_CUDA=ON"] else [])
    /\ with_prefix "-DLegion_GPU_REDUCTIONS=" opts
       = (if cuda spec then ["-DLegion_GPU_REDUCTIONS=ON"] else [])
    /\ with_prefix "-DLegion_CUDA_ARCH=" opts
       = (if cuda spec
          then [("-DLegion_CUDA_ARCH=" ++ cuda_arch spec)%string]
          else [])
    /\ with_prefix "-DLegion_HIJACK_CUDART=" opts
       = (if cuda spec
          then [if cuda_hijack spec
                then "-DLegion_HIJACK_CUDART=ON"
                else "-DLegion_HIJACK_CUDART=OFF"]
          else []).
Proof.
  intros Hok Hfuel. returns Hok Hfuel.
  repeat split; keep_blocks; settle.
Qed.

Lemma cuda_flags_witness :
  exists opts st',
    cmake_args 512 scenario_F (fresh []) = (Returned opts, st')
    /\ with_prefix "-DLegion_USE_CUDA=" opts = ["-DLegion_USE_CUDA=ON"]
    /\ with_prefix "-DLegion_GPU_REDUCTIONS=" opts
       = ["-DLegion_GPU_REDUCTIONS=ON"]
    /\ with_prefix "-DLegion_CUDA_ARCH=" opts = ["-DLegion_CUDA_ARCH=80"]
    /\ with_prefix "-DLegion_HIJACK_CUDART=" opts
       = ["-DLegion_HIJACK_CUDART=OFF"].
Proof.
  apply (cuda_flags 512 scenario_F (fresh [])).
  - reflexivity.
  - unfold enough_fuel. cbn. lia.
Defined.

(* ================================================================== *)
(** ** The debug-build block *)

(** C7. On every accepted spec the three debug flags go to
    [cmake_cxx_flags], all three and nothing else when [build_type] is
    "Debug" and nothing otherwise, and the returned list holds none of
    the three. *)
Theorem debug_flags_not_returned fuel spec st :
  cmake_args_ok spec = true ->
  enough_fuel fuel spec ->
  exists opts st',
    cmake_args fuel spec st = (Returned opts, st')
    /\ cmake_cxx_flags st'
       = (if String.eqb (build_type spec) "Debug"
          then ["-DDEBUG_REALM"; "-DDEBUG_LEGION"; "-ggdb"]
          else [])
    /\ ~ In "-DDEBUG_REALM" opts
    /\ ~ In "-DDEBUG_LEGION" opts
    /\ ~ In "-ggdb" opts.
Proof.
  intros Hok Hfuel. returns Hok Hfuel.
  split; [reflexivity|].
  repeat split; apply occurrences_not_in; keep_blocks; reflexivity.
Qed.

Lemma debug_flags_not_returned_witness :
  exists opts st',
    cmake_args 512 debug_build (fresh []) = (Returned opts, st')
    /\ cmake_cxx_flags st' = ["-DDEBUG_REALM"; "-DDEBUG_LEGION"; "-ggdb"]
    /\ ~ In "-DDEBUG_REALM" opts
    /\ ~ In "-DDEBUG_LEGION" opts
    /\ ~ In "-ggdb" opts.
Proof.
  apply (debug_flags_not_returned 512 debug_build (fresh [])).
  - reflexivity.
  - unfold enough_fuel. cbn. lia.
Defined.

(* ================================================================== *)
(** ** The dimension limit *)

Lemma fmt_d_inj v w : fmt_d v = fmt_d w -> v = w.
Proof.
  unfold fmt_d. intros Heq.
  assert (Hnn : forall z, Z.to_int z <> Decimal.Pos Decimal.Nil
                          /\ Z.to_int z <> Decimal.Neg Decimal.Nil).
  { intros [|p|p]; cbn; split; try discriminate;
      intros [= H]; now apply DecimalPos.Unsigned.to_uint_nonnil in H. }
  apply DecimalZ.to_int_inj.
  assert (Hs : Some (Z.to_int v) = Some (Z.to_int w)).
  { rewrite <- (NilZero.isi (Z.to_int v)) by apply Hnn.
    rewrite <- (NilZero.isi (Z.to_int w)) by apply Hnn.
    now rewrite Heq. }
  now injection Hs.
Qed.

(** C9. Whatever integer [v] is put in [max_dims] of an accepted spec,
    [cmake_args] still returns, and the returned list holds one
    dimension-limit flag, which carries [v] itself: distinct values give
    distinct flags. The conflict gate does not look at [max_dims]
    either. *)
Theorem max_dims_verbatim v fuel spec st :
  cmake_args_ok spec = true ->
  enough_fuel fuel spec ->
  exists opts st',
    cmake_args fuel (set_max_dims v spec) st = (Returned opts, st')
    /\ with_prefix "-DLegion_MAX_DIM=" opts
       = [("-DLegion_MAX_DIM=" ++ fmt_d v)%string]
    /\ (forall w, fmt_d w = fmt_d v -> w = v)
    /\ checkAll (set_max_dims v spec) = checkAll spec.
Proof.
  intros Hok Hfuel.
  assert (Hok' : cmake_args_ok (set_max_dims v spec) = true) by exact Hok.
  assert (Hfuel' : enough_fuel fuel (set_max_dims v spec)) by exact Hfuel.
  returns Hok' Hfuel'.
  split; [|split].
  - keep_blocks. reflexivity.
  - intros w. apply fmt_d_inj.
  - reflexivity.
Qed.

Lemma max_dims_verbatim_witness :
  exists opts st',
    cmake_args 512 (set_max_dims (-7) default_spec) (fresh [])
    = (Returned opts, st')
    /\ with_prefix "-DLegion_MAX_DIM=" opts = ["-DLegion_MAX_DIM=-7"]
    /\ (forall w, fmt_d w = fmt_d (-7) -> w = -7)
    /\ checkAll (set_max_dims (-7) default_spec) = checkAll default_spec.
Proof.
  apply (max_dims_verbatim (-7) 512 default_spec (fresh [])).
  - reflexivity.
  - unfold enough_fuel. cbn. lia.
Defined.

(* ================================================================== *)
(** ** The boolean feature blocks *)

(** C3, as the code has it. On every accepted spec: [shared], [libdl]
    and [zlib] each give one flag, =ON or =OFF; [bounds_checks],
    [privilege_checks], [enable_tls], [spy], [hdf5], [hwloc], [openmp],
    [papi] and [python] each give their =ON flag when on and no flag when
    off; [fortran] and [redop_complex] do the same from their own block,
    and the only other copy of their =ON flag is the one that [bindings]
    forces; [native] gives [-DBUILD_MARCH:STRING=native] when on and no
    flag when off. *)
Theorem feature_flags fuel spec st :
  cmake_args_ok spec = true ->
  enough_fuel fuel spec ->
  exists opts st',
    cmake_args fuel spec st = (Returned opts, st')
    /\ with_prefix "-DBUILD_SHARED_LIBS=" opts
       = [if shared spec then "-DBUILD_SHARED_LIBS=ON"
          else "-DBUILD_SHARED_LIBS=OFF"]
    /\ with_prefix "-DLegion_USE_LIBDL=" opts
       = [if libdl spec then "-DLegion_USE_LIBDL=ON"
          else "-DLegion_USE_LIBDL=OFF"]
    /\ with_prefix "-DLegion_USE_ZLIB=" opts
       = [if zlib spec then "-DLegion_USE_ZLIB=ON"
          else "-DLegion_USE_ZLIB=OFF"]
    /\ with_prefix "-DLegion_BOUNDS_CHECKS=" opts
       = (if bounds_checks spec then ["-DLegion_BOUNDS_CHECKS=ON"] else [])
    /\ with_prefix "-DLegion_PRIVILEGE_CHECKS=" opts
       = (if privilege_checks spec then ["-DLegion_PRIVILEGE_CHECKS=ON"]
          else [])
    /\ with_prefix "-DLegion_ENABLE_TLS=" opts
       = (if enable_tls spec then ["-DLegion_ENABLE_TLS=ON"] else [])
    /\ with_prefix "-DLegion_SPY=" opts
       = (if spy spec then ["-DLegion_SPY=ON"] else [])
    /\ with_prefix "-DLegion_USE_HDF5=" opts
       = (if hdf5 spec then ["-DLegion_USE_HDF5=ON"] else [])
    /\ with_prefix "-DLegion_USE_HWLOC=" opts
       = (if hwloc spec then ["-DLegion_USE_HWLOC=ON"] else [])
    /\ with_prefix "-DLegion_USE_OpenMP=" opts
       = (if openmp spec then ["-DLegion_USE_OpenMP=ON"] else [])
    /\ with_prefix "-DLegion_USE_PAPI=" opts
       = (if papi spec then ["-DLegion_USE_PAPI=ON"] else [])
    /\ with_prefix "-DLegion_USE_Python=" opts
       = (if python spec then ["-DLegion_USE_Python=ON"] else [])
    /\ with_prefix "-DLegion_USE_Fortran=" opts
       = (if fortran spec then ["-DLegion_USE_Fortran=ON"] else [])
         ++ (if bindings spec then ["-DLegion_USE_Fortran=ON"] else [])
    /\ with_prefix "-DLegion_REDOP_COMPLEX=" opts
       = (if redop_complex spec then ["-DLegion_REDOP_COMPLEX=ON"] else [])
         ++ (if bindings spec then ["-DLegion_REDOP_COMPLEX=ON"] else [])
    /\ with_prefix "-DBUILD_MARCH" opts
       = (if native spec then ["-DBUILD_MARCH:STRING=native"] else []).
Proof.
  intros Hok Hfuel. returns Hok Hfuel.
  repeat split; keep_blocks; settle.
Qed.

Lemma feature_flags_witness :
  exists opts st',
    cmake_args 512 default_spec (fresh []) = (Returned opts, st')
    /\ with_prefix "-DBUILD_SHARED_LIBS=" opts = ["-DBUILD_SHARED_LIBS=OFF"]
    /\ with_prefix "-DLegion_USE_LIBDL=" opts = ["-DLegion_USE_LIBDL=ON"]
    /\ with_prefix "-DLegion_USE_ZLIB=" opts = ["-DLegion_USE_ZLIB=ON"]
    /\ with_prefix "-DLegion_BOUNDS_CHECKS=" opts = []
    /\ with_prefix "-DLegion_PRIVILEGE_CHECKS=" opts = []
    /\ with_prefix "-DLegion_ENABLE_TLS=" opts = []
    /\ with_prefix "-DLegion_SPY=" opts = []
    /\ with_prefix "-DLegion_USE_HDF5=" opts = []
    /\ with_prefix "-DLegion_USE_HWLOC=" opts = []
    /\ with_prefix "-DLegion_USE_OpenMP=" opts = []
    /\ with_prefix "-DLegion_USE_PAPI=" opts = []
    /\ with_prefix "-DLegion_USE_Python=" opts = []
    /\ with_prefix "-DLegion_USE_Fortran=" opts = []
    /\ with_prefix "-DLegion_REDOP_COMPLEX=" opts = []
    /\ with_prefix "-DBUILD_MARCH" opts = [].
Proof.
  apply (feature_flags 512 default_spec (fresh [])).
  - reflexivity.
  - unfold enough_fuel. cbn. lia.
Defined.

(** C3 as stated fails on the declared defaults: the spec passes the
    conflict gate, [bounds_checks] is off, and the returned list has
    neither [-DLegion_BOUNDS_CHECKS=OFF] nor any other flag of that
    variant. *)
Lemma feature_flags_counterexample :
  checkAll default_spec = None
  /\ bounds_checks default_spec = false
  /\ exists opts st',
       translate 512 default_spec (fresh []) = (Returned opts, st')
       /\ with_prefix "-DLegion_BOUNDS_CHECKS" opts = []
       /\ ~ In "-DLegion_BOUNDS_CHECKS=OFF" opts.
Proof.
  split; [reflexivity|]. split; [reflexivity|].
  eexists. eexists. split; [vm_compute; reflexivity|].
  split; [reflexivity|].
  apply occurrences_not_in. reflexivity.
Qed.

(* ================================================================== *)
(** ** The field limit *)

(** What lines 321-329 compute, case by case. *)
Lemma normalized_max_fields_spec v :
  (v <= 0 -> normalized_max_fields v = 512)
  /\ (0 < v -> power_of_two v -> normalized_max_fields v = v)
  /\ (0 < v -> ~ power_of_two v ->
      normalized_max_fields v = 2 ^ (Z.log2 v + 1)).
Proof.
  unfold normalized_max_fields. cbv zeta. repeat split.
  - intros Hle. apply Z.leb_le in Hle. now rewrite Hle.
  - intros Hpos Hpow. apply Z.leb_gt in Hpos. rewrite Hpos.
    now rewrite (Bits.power_of_two_land v Hpow).
  - intros Hpos Hnp.
    assert (Hgt : (v <=? 0) = false) by now apply Z.leb_gt.
    rewrite Hgt.
    destruct (Z.eqb_spec (Z.land v (v - 1)) 0) as [Hz|Hnz].
    + destruct Hnp. now apply Bits.land_zero_power_of_two.
    + cbn [negb]. rewrite Z.shiftl_mul_pow2 by lia.
      rewrite Z.pow_add_r by (try apply Z.log2_nonneg; lia).
      reflexivity.
Qed.

(** Between two consecutive powers of two there is one place only. *)
Lemma power_of_two_above_unique v q :
  0 < v -> power_of_two q -> q / 2 < v < q -> q = 2 ^ (Z.log2 v + 1).
Proof.
  intros Hv (k & Hk & ->) [Hlo Hhi].
  destruct (Z.eq_dec k 0) as [->|Hk0]; [cbn in Hhi; lia|].
  assert (Hhalf : 2 ^ k / 2 = 2 ^ (k - 1)).
  { replace k with (k - 1 + 1) at 1 by lia.
    rewrite Z.pow_add_r by lia. now rewrite Z.div_mul by lia. }
  rewrite Hhalf in Hlo.
  assert (Hlog : Z.log2 v = k - 1).
  { apply Z.log2_unique; [lia|].
    replace (Z.succ (k - 1)) with k by lia. lia. }
  rewrite Hlog. f_equal. lia.
Qed.

(** C1. On every accepted spec with [max_fields = v] the returned list
    holds one field-limit flag, and the value [p] it carries is 512 when
    [v <= 0], [v] itself when [v] is a positive power of two, and
    otherwise the power of two with [p/2 < v < p], which is the only one
    there and the smallest one above [v]. *)
Theorem max_fields_normalized v fuel spec st :
  max_fields spec = v ->
  cmake_args_ok spec = true ->
  enough_fuel fuel spec ->
  exists opts st' p,
    cmake_args fuel spec st = (Returned opts, st')
    /\ with_prefix "-DLegion_MAX_FIELDS=" opts
       = [("-DLegion_MAX_FIELDS=" ++ fmt_d p)%string]
    /\ (v <= 0 -> p = 512)
    /\ (0 < v -> power_of_two v -> p = v)
    /\ (0 < v -> ~ power_of_two v ->
        power_of_two p
        /\ p / 2 < v < p
        /\ (forall q, power_of_two q -> q / 2 < v < q -> q = p)
        /\ (forall q, power_of_two q -> v < q -> p <= q)).
Proof.
  intros Hv Hok Hfuel.
  rewrite (cmake_args_returns _ _ _ Hok Hfuel).
  exists (all_options spec). eexists.
  exists (normalized_max_fields (max_fields spec)).
  split; [reflexivity|]. split; [keep_blocks; reflexivity|].
  rewrite Hv.
  destruct (normalized_max_fields_spec v) as (Hle & Hpow & Hnp).
  split; [exact Hle|]. split; [exact Hpow|].
  intros Hpos Hnot. rewrite (Hnp Hpos Hnot).
  pose proof (Z.log2_nonneg v) as Hk.
  pose proof (Z.log2_spec v Hpos) as [Hlo Hhi].
  replace (Z.succ (Z.log2 v)) with (Z.log2 v + 1) in Hhi by lia.
  assert (Hhalf : 2 ^ (Z.log2 v + 1) / 2 = 2 ^ Z.log2 v).
  { rewrite Z.pow_add_r by lia. now rewrite Z.div_mul by lia. }
  assert (Hne : v <> 2 ^ Z.log2 v).
  { intros E. apply Hnot. exists (Z.log2 v). now split. }
  repeat split.
  - exists (Z.log2 v + 1). split; [lia | reflexivity].
  - rewrite Hhalf. lia.
  - exact Hhi.
  - intros q Hq Hbetween.
    now apply power_of_two_above_unique.
  - intros q (k & Hk0 & ->) Hlt.
    apply Z.pow_le_mono_r; [lia|].
    destruct (Z.lt_ge_cases k (Z.log2 v + 1)) as [Hsmall|]; [|assumption].
    assert (2 ^ k <= 2 ^ Z.log2 v) by (apply Z.pow_le_mono_r; lia).
    lia.
Qed.

Lemma max_fields_normalized_witness :
  exists opts st' p,
    cmake_args 100 scenario_C (fresh []) = (Returned opts, st')
    /\ with_prefix "-DLegion_MAX_FIELDS=" opts
       = [("-DLegion_MAX_FIELDS=" ++ fmt_d p)%string]
    /\ (100 <= 0 -> p = 512)
    /\ (0 < 100 -> power_of_two 100 -> p = 100)
    /\ (0 < 100 -> ~ power_of_two 100 ->
        power_of_two p
        /\ p / 2 < 100 < p
        /\ (forall q, power_of_two q -> q / 2 < 100 < q -> q = p)
        /\ (forall q, power_of_two q -> 100 < q -> p <= q)).
Proof.
  apply (max_fields_normalized 100 100 scenario_C (fresh [])).
  - reflexivity.
  - reflexivity.
  - unfold enough_fuel. cbn. lia.
Defined.

(** Scenario C: [max_fields=100] gives 128. *)
Example scenario_C_options :
  with_prefix "-DLegion_MAX_FIELDS="
    (returned_options (cmake_args 100 scenario_C (fresh [])))
  = ["-DLegion_MAX_FIELDS=128"].
Proof. vm_compute. reflexivity. Qed.

(** Scenario D: [max_fields=0] gives 512. *)
Example scenario_D_options :
  with_prefix "-DLegion_MAX_FIELDS="
    (returned_options (cmake_args 0 scenario_D (fresh [])))
  = ["-DLegion_MAX_FIELDS=512"].
Proof. vm_compute. reflexivity. Qed.

(* ================================================================== *)
(** ** [gasnet_root] without [network=gasnet] *)

(** The directive of line 96 is the first of the table, so it is the one
    the gate reports. *)
Lemma checkAll_mpi_gasnet_root spec :
  network spec = "mpi" ->
  gasnet_root spec <> "none" ->
  exists r, checkAll spec = Some r /\ msg r = None.
Proof.
  intros Hnet Hroot. apply String.eqb_neq in Hroot.
  unfold checkAll, conflicts. cbn [app find conflict_spec when].
  unfold gasnet_root_set. rewrite Hnet, Hroot. cbn.
  eexists. split; reflexivity.
Qed.

(** C2, as the code has it. With [network=none] or [network=mpi] and a
    [gasnet_root] other than "none" the translation always raises and
    returns no list. With [network=mpi] the error is the [ConflictError]
    of the directive of line 96. With [network=none] no directive is
    about [gasnet_root]: the error is the [ConflictError] of another
    directive when one holds, and otherwise the [InstallError] that the
    transport block of [cmake_args] raises. *)
Theorem gasnet_root_without_gasnet fuel spec st :
  network spec = "none" \/ network spec = "mpi" ->
  gasnet_root spec <> "none" ->
  exists e st',
    translate fuel spec st = (Raised e, st')
    /\ (network spec = "mpi" -> e = ConflictError None)
    /\ (network spec = "none" ->
        match checkAll spec with
        | Some r => e = ConflictError (msg r)
        | None => e = InstallError gasnet_root_msg
        end).
Proof.
  intros [Hnet|Hnet] Hroot.
  - unfold translate. destruct (checkAll spec) as [r|] eqn:Hgate.
    + exists (ConflictError (msg r)), st. split; [reflexivity|].
      split; [rewrite Hnet; discriminate | reflexivity].
    + destruct (cmake_args_install_error fuel spec st) as (st' & Hrun & _).
      * now rewrite Hnet.
      * now apply String.eqb_neq.
      * exists (InstallError gasnet_root_msg), st'.
        split; [exact Hrun|].
        split; [rewrite Hnet; discriminate | reflexivity].
  - destruct (checkAll_mpi_gasnet_root spec Hnet Hroot) as (r & Hgate & Hmsg).
    unfold translate. rewrite Hgate, Hmsg.
    exists (ConflictError None), st. split; [reflexivity|].
    split; [reflexivity | rewrite Hnet; discriminate].
Qed.

Lemma gasnet_root_without_gasnet_witness :
  exists e st',
    translate 512 stray_gasnet_root (fresh []) = (Raised e, st')
    /\ (network stray_gasnet_root = "mpi" -> e = ConflictError None)
    /\ (network stray_gasnet_root = "none" ->
        match checkAll stray_gasnet_root with
        | Some r => e = ConflictError (msg r)
        | None => e = InstallError gasnet_root_msg
        end).
Proof.
  apply (gasnet_root_without_gasnet 512 stray_gasnet_root (fresh [])).
  - left. reflexivity.
  - discriminate.
Defined.

(** C2 as stated fails with [network=none gasnet_root=/opt/gasnet]: no
    declared conflict holds, and the error is the [InstallError] of
    [cmake_args], not a [ConflictError] of the gate. *)
Lemma gasnet_root_without_gasnet_counterexample :
  network stray_gasnet_root = "none"
  /\ gasnet_root stray_gasnet_root <> "none"
  /\ checkAll stray_gasnet_root = None
  /\ fst (translate 512 stray_gasnet_root (fresh []))
     = Raised (InstallError gasnet_root_msg)
  /\ (forall m, fst (translate 512 stray_gasnet_root (fresh []))
                <> Raised (ConflictError m)).
Proof.
  split; [reflexivity|]. split; [discriminate|].
  split; [reflexivity|]. split; [vm_compute; reflexivity|].
  intros m. vm_compute. discriminate.
Qed.

(* ================================================================== *)
(** ** The write to the environment *)

(** C8. A translation that returns has written the environment once,
    with the Kokkos compiler path, when [kokkos] is on, and not at all
    when it is off; a translation that raises, at the gate or in
    [cmake_args], has not written it. *)
Theorem kokkos_environ_write fuel spec st :
  enough_fuel fuel spec ->
  (exists opts st',
     translate fuel spec st = (Returned opts, st')
     /\ os_environ st'
        = if kokkos spec
          then ("KOKKOS_CXX_COMPILER", kokkos_cxx spec) :: os_environ st
          else os_environ st)
  \/ (exists e st',
        translate fuel spec st = (Raised e, st')
        /\ os_environ st' = os_environ st).
Proof.
  intros Hfuel. unfold translate.
  destruct (checkAll spec) as [r|].
  - right. exists (ConflictError (msg r)), st. split; reflexivity.
  - destruct (cmake_args_ok spec) eqn:Hok.
    + left. rewrite (cmake_args_returns _ _ _ Hok Hfuel).
      eexists; eexists; split; [reflexivity|].
      cbn [os_environ]. unfold kokkos_environ.
      now destruct (kokkos spec).
    + right.
      destruct (cmake_args_raises fuel spec st Hok) as (e & st' & Hrun & Henv & _).
      exists e, st'. now split.
Qed.

Lemma kokkos_environ_write_witness :
  (exists opts st',
     translate 512 with_kokkos (fresh []) = (Returned opts, st')
     /\ os_environ st' = [("KOKKOS_CXX_COMPILER", "/usr/bin/g++")])
  \/ (exists e st',
        translate 512 with_kokkos (fresh []) = (Raised e, st')
        /\ os_environ st' = []).
Proof.
  apply (kokkos_environ_write 512 with_kokkos (fresh [])).
  unfold enough_fuel. cbn. lia.
Defined.

(** [+kokkos] with its node: the path is in the environment after the
    call. *)
Example with_kokkos_environ :
  getenv "KOKKOS_CXX_COMPILER"
    (os_environ (snd (translate 512 with_kokkos (fresh []))))
  = Some "/usr/bin/g++".
Proof. vm_compute. reflexivity. Qed.

(** [+kokkos] without its node, and a failing guard with [+kokkos]: the
    call raises and the environment is as before. *)
Example failed_translation_environ :
  (fst (translate 512 (set_kokkos true default_spec) (fresh []))
   = Raised (KeyError "kokkos")
   /\ os_environ (snd (translate 512 (set_kokkos true default_spec)
                         (fresh [])))
      = [])
  /\ translate 512 (set_gasnet_root "/opt/gasnet" with_kokkos) (fresh [])
     = (Raised (InstallError gasnet_root_msg), fresh []).
Proof. repeat split; vm_compute; reflexivity. Qed.

(* ================================================================== *)
(** ** The validator of [gasnet_root] *)

(** X1. [validate_gasnet_root] accepts "none" whatever the file system
    holds and any other value exactly when it is a directory; it prints
    one line, naming the value, exactly when it rejects. *)
Theorem validate_gasnet_root_accepts isdir value :
  (fst (validate_gasnet_root isdir value) = true
   <-> value = "none" \/ isdir value = true)
  /\ snd (validate_gasnet_root isdir value)
     = (if fst (validate_gasnet_root isdir value) then []
        else [("gasnet_root: " ++ value ++ " -- no such directory.")%string])
  /\ (forall isdir', validate_gasnet_root isdir' "none" = (true, [])).
Proof.
  unfold validate_gasnet_root.
  split; [|split; [|reflexivity]].
  - destruct (String.eqb_spec value "none") as [->|Hne]; cbn.
    + tauto.
    + destruct (isdir value); cbn; split; intros H;
        try discriminate; try tauto.
  - destruct (String.eqb value "none"); [reflexivity|].
    now destruct (isdir value).
Qed.

Lemma append_inj_l p x y : (p ++ x)%string = (p ++ y)%string -> x = y.
Proof.
  induction p as [|a p IH]; cbn; [trivial|].
  intros [= H]. now apply IH.
Qed.

Lemma in_with_prefix p x l :
  In x l -> String.prefix p x = true -> In x (with_prefix p l).
Proof. intros Hin Hp. apply filter_In. now split. Qed.

(** X2. When the validator accepts the [gasnet_root] of a spec, every
    root-path flag that [cmake_args] returns points at a directory that
    exists. *)
Theorem root_path_flag_is_a_directory isdir fuel spec st :
  fst (validate_gasnet_root isdir (gasnet_root spec)) = true ->
  cmake_args_ok spec = true ->
  enough_fuel fuel spec ->
  exists opts st',
    cmake_args fuel spec st = (Returned opts, st')
    /\ forall d, In ("-DGASNet_ROOT_DIR=" ++ d)%string opts ->
                 d = gasnet_root spec /\ isdir d = true.
Proof.
  intros Hval Hok Hfuel. returns Hok Hfuel.
  intros d Hin.
  apply (in_with_prefix "-DGASNet_ROOT_DIR=") in Hin;
    [|apply prefix_append].
  assert (Hflags :
            with_prefix "-DGASNet_ROOT_DIR=" (all_options spec)
            = if String.eqb (network spec) "gasnet"
                 && negb (String.eqb (gasnet_root spec) "none")
              then [("-DGASNet_ROOT_DIR=" ++ gasnet_root spec)%string]
              else []).
  { keep_blocks.
    destruct (String.eqb (network spec) "gasnet"),
      (String.eqb (gasnet_root spec) "none"); cbn [andb negb]; settle. }
  rewrite Hflags in Hin.
  destruct (String.eqb (network spec) "gasnet"); [|destruct Hin].
  destruct (String.eqb_spec (gasnet_root spec) "none") as [|Hne];
    [destruct Hin|].
  destruct Hin as [Heq|[]]. apply append_inj_l in Heq. subst d.
  split; [reflexivity|].
  unfold validate_gasnet_root in Hval.
  apply String.eqb_neq in Hne. rewrite Hne in Hval.
  now destruct (isdir (gasnet_root spec)).
Qed.

Lemma root_path_flag_is_a_directory_witness :
  exists opts st',
    cmake_args 512 scenario_B (fresh []) = (Returned opts, st')
    /\ forall d, In ("-DGASNet_ROOT_DIR=" ++ d)%string opts ->
                 d = gasnet_root scenario_B
                 /\ String.eqb d "/opt/gasnet" = true.
Proof.
  apply (root_path_flag_is_a_directory
           (fun d => String.eqb d "/opt/gasnet") 512 scenario_B (fresh [])).
  - reflexivity.
  - reflexivity.
  - unfold enough_fuel. cbn. lia.
Defined.

(* ================================================================== *)
(** ** How a call of [cmake_args] ends *)

(** X3. With enough fuel a call of [cmake_args] never runs out of it. It
    raises [InstallError] exactly when [network] is not "gasnet" and
    [gasnet_root] is not "none", whatever else the spec holds; it raises
    [KeyError] exactly when that guard passes and [kokkos] is on without
    a kokkos node in the DAG; it returns a list in every other case. *)
Theorem cmake_args_outcome fuel spec st :
  enough_fuel fuel spec ->
  (fst (cmake_args fuel spec st) = Raised (InstallError gasnet_root_msg)
   <-> network spec <> "gasnet" /\ gasnet_root spec <> "none")
  /\ (fst (cmake_args fuel spec st) = Raised (KeyError "kokkos")
      <-> (network spec = "gasnet" \/ gasnet_root spec = "none")
          /\ kokkos spec = true /\ has_node "kokkos" spec = false)
  /\ ((exists opts, fst (cmake_args fuel spec st) = Returned opts)
      <-> cmake_args_ok spec = true)
  /\ fst (cmake_args fuel spec st) <> OutOfFuel.
Proof.
  intros Hfuel.
  assert (Hcases :
            (String.eqb (network spec) "gasnet" = false
             /\ String.eqb (gasnet_root spec) "none" = false)
            \/ ((String.eqb (network spec) "gasnet"
                 || String.eqb (gasnet_root spec) "none" = true)
                /\ kokkos spec = true /\ has_node "kokkos" spec = false)
            \/ cmake_args_ok spec = true).
  { unfold cmake_args_ok.
    destruct (String.eqb (network spec) "gasnet"),
      (String.eqb (gasnet_root spec) "none"), (kokkos spec),
      (has_node "kokkos" spec); cbn; auto. }
  unfold cmake_args_ok.
  destruct Hcases as [[Hnet Hroot]|[(Hguard & Hkok & Hnode)|Hok]].
  - destruct (cmake_args_install_error fuel spec st Hnet Hroot)
      as (st' & -> & _).
    rewrite Hnet, Hroot.
    apply String.eqb_neq in Hnet, Hroot.
    cbn [fst orb andb]. repeat split; intros;
      try discriminate; try tauto; try (intuition congruence).
    destruct H as [opts H]. discriminate H.
  - destruct (cmake_args_key_error fuel spec st Hguard Hkok Hnode)
      as (st' & -> & _).
    rewrite Hguard, Hkok, Hnode.
    apply orb_true_iff in Hguard. rewrite !String.eqb_eq in Hguard.
    cbn [fst orb andb negb]. repeat split; intros;
      try discriminate; try tauto; try (intuition congruence).
    destruct H as [opts H]. discriminate H.
  - rewrite (cmake_args_returns fuel spec st Hok Hfuel).
    unfold cmake_args_ok in Hok. rewrite Hok.
    apply andb_prop in Hok. destruct Hok as [Hguard Hnode].
    apply orb_true_iff in Hguard, Hnode.
    rewrite !String.eqb_eq in Hguard. rewrite negb_true_iff in Hnode.
    cbn [fst]. repeat split; intros;
      try discriminate; try tauto; try (intuition congruence).
    eexists. reflexivity.
Qed.

Lemma cmake_args_outcome_witness :
  (fst (cmake_args 512 stray_gasnet_root (fresh []))
   = Raised (InstallError gasnet_root_msg)
   <-> network stray_gasnet_root <> "gasnet"
       /\ gasnet_root stray_gasnet_root <> "none")
  /\ (fst (cmake_args 512 stray_gasnet_root (fresh []))
      = Raised (KeyError "kokkos")
      <-> (network stray_gasnet_root = "gasnet"
           \/ gasnet_root stray_gasnet_root = "none")
          /\ kokkos stray_gasnet_root = true
          /\ has_node "kokkos" stray_gasnet_root = false)
  /\ ((exists opts,
          fst (cmake_args 512 stray_gasnet_root (fresh [])) = Returned opts)
      <-> cmake_args_ok stray_gasnet_root = true)
  /\ fst (cmake_args 512 stray_gasnet_root (fresh [])) <> OutOfFuel.
Proof.
  apply (cmake_args_outcome 512 stray_gasnet_root (fresh [])).
  unfold enough_fuel. cbn. lia.
Defined.

(* ================================================================== *)
(** ** The other branches of the transport block *)

(** X4. On an accepted spec whose [network] is not "gasnet" the returned
    list holds no GASNet root, conduit or configure flag: with
    [network=mpi] it holds [-DLegion_NETWORKS=mpi] and no embed flag, and
    with any other value it holds [-DLegion_EMBED_GASNet=OFF] and no
    transport-select flag. *)
Theorem transport_without_gasnet fuel spec st :
  cmake_args_ok spec = true ->
  enough_fuel fuel spec ->
  network spec <> "gasnet" ->
  exists opts st',
    cmake_args fuel spec st = (Returned opts, st')
    /\ with_prefix "-DGASNet_" opts = []
    /\ with_prefix "-DLegion_NETWORKS=" opts
       = (if String.eqb (network spec) "mpi"
          then ["-DLegion_NETWORKS=mpi"] else [])
    /\ with_prefix "-DLegion_EMBED_GASNet" opts
       = (if String.eqb (network spec) "mpi"
          then [] else ["-DLegion_EMBED_GASNet=OFF"]).
Proof.
  intros Hok Hfuel Hnet. apply String.eqb_neq in Hnet.
  returns Hok Hfuel.
  repeat split; keep_blocks; rewrite Hnet; settle.
Qed.

Lemma transport_without_gasnet_witness :
  exists opts st',
    cmake_args 512 over_mpi (fresh []) = (Returned opts, st')
    /\ with_prefix "-DGASNet_" opts = []
    /\ with_prefix "-DLegion_NETWORKS=" opts = ["-DLegion_NETWORKS=mpi"]
    /\ with_prefix "-DLegion_EMBED_GASNet" opts = [].
Proof.
  apply (transport_without_gasnet 512 over_mpi (fresh [])).
  - reflexivity.
  - unfold enough_fuel. cbn. lia.
  - discriminate.
Defined.

(* ================================================================== *)
(** ** The flags that depend on two variants *)

(** X5. On an accepted spec the flags that the claims leave out are
    decided as follows: the GASNet debug flag is there exactly when
    [network=gasnet] and [gasnet_debug] is on, the nvcc flag exactly when
    [cuda] and [cuda_unsupported_compiler] are both on, the Kokkos flag
    exactly when [kokkos] is on and the bindings flag exactly when
    [bindings] is on; each is there once. *)
Theorem nested_flags fuel spec st :
  cmake_args_ok spec = true ->
  enough_fuel fuel spec ->
  exists opts st',
    cmake_args fuel spec st = (Returned opts, st')
    /\ with_prefix "-DLegion_EMBED_GASNet_CONFIGURE_ARGS=" opts
       = (if String.eqb (network spec) "gasnet" && gasnet_debug spec
          then ["-DLegion_EMBED_GASNet_CONFIGURE_ARGS=--enable-debug"]
          else [])
    /\ with_prefix "-DCUDA_NVCC_FLAGS" opts
       = (if cuda spec && cuda_unsupported_compiler spec
          then ["-DCUDA_NVCC_FLAGS:STRING=--allow-unsupported-compiler"]
          else [])
    /\ with_prefix "-DLegion_USE_Kokkos=" opts
       = (if kokkos spec then ["-DLegion_USE_Kokkos=ON"] else [])
    /\ with_prefix "-DLegion_BUILD_BINDINGS=" opts
       = (if bindings spec then ["-DLegion_BUILD_BINDINGS=ON"] else []).
Proof.
  intros Hok Hfuel. returns Hok Hfuel.
  repeat split; keep_blocks.
  - destruct (String.eqb (network spec) "gasnet"), (gasnet_debug spec);
      cbn [andb]; settle.
  - destruct (cuda spec), (cuda_unsupported_compiler spec);
      cbn [andb]; settle.
  - settle.
  - settle.
Qed.

Lemma nested_flags_witness :
  exists opts st',
    cmake_args 512 with_kokkos (fresh []) = (Returned opts, st')
    /\ with_prefix "-DLegion_EMBED_GASNet_CONFIGURE_ARGS=" opts = []
    /\ with_prefix "-DCUDA_NVCC_FLAGS" opts = []
    /\ with_prefix "-DLegion_USE_Kokkos=" opts = ["-DLegion_USE_Kokkos=ON"]
    /\ with_prefix "-DLegion_BUILD_BINDINGS=" opts = [].
Proof.
  apply (nested_flags 512 with_kokkos (fresh [])).
  - reflexivity.
  - unfold enough_fuel. cbn. lia.
Defined.

(* ================================================================== *)
(** ** The shape of the returned list *)

(** Takes a membership in [all_options] apart, block by block. *)
Ltac in_cases :=
  unfold all_options, transport_options, checks_options, cuda_options,
    library_options, bindings_options, limits_options in *;
  repeat match goal with
         | H : In _ (_ ++ _) |- _ => apply in_app_or in H
         | H : _ \/ _ |- _ => destruct H as [H|H]
         | H : In _ (if ?c then _ else _) |- _ => destruct c
         | H : In _ (_ :: _) |- _ => destruct H as [H|H]
         | H : In _ [] |- _ => destruct H
         end;
  subst.

(** X6. Every option that [cmake_args] returns is a CMake definition: it
    starts with [-D] and has an [=]. *)
Theorem options_are_definitions fuel spec st :
  cmake_args_ok spec = true ->
  enough_fuel fuel spec ->
  exists opts st',
    cmake_args fuel spec st = (Returned opts, st')
    /\ forall o, In o opts ->
         String.prefix "-D" o = true /\ has_equals o = true.
Proof.
  intros Hok Hfuel. returns Hok Hfuel.
  clear Hok Hfuel. intros o Hin.
  in_cases; split; reflexivity.
Qed.

Lemma options_are_definitions_witness :
  exists opts st',
    cmake_args 512 scenario_B (fresh []) = (Returned opts, st')
    /\ forall o, In o opts ->
         String.prefix "-D" o = true /\ has_equals o = true.
Proof.
  apply (options_are_definitions 512 scenario_B (fresh [])).
  - reflexivity.
  - unfold enough_fuel. cbn. lia.
Defined.

(** The options of a spec are a function of the variable they set. *)
Lemma options_by_name spec :
  exists f : string -> string,
    forall o, In o (all_options spec) -> o = f (cmake_name o).
Proof.
  exists (fun name =>
            if String.eqb name "-DLegion_NETWORKS" then
              if String.eqb (network spec) "gasnet"
              then "-DLegion_NETWORKS=gasnetex" else "-DLegion_NETWORKS=mpi"
            else if String.eqb name "-DGASNet_ROOT_DIR" then
              ("-DGASNet_ROOT_DIR=" ++ gasnet_root spec)%string
            else if String.eqb name "-DLegion_EMBED_GASNet" then
              if String.eqb (network spec) "gasnet"
              then "-DLegion_EMBED_GASNet=ON" else "-DLegion_EMBED_GASNet=OFF"
            else if String.eqb name "-DGASNet_CONDUIT" then
              ("-DGASNet_CONDUIT=" ++ conduit spec)%string
            else if String.eqb name "-DLegion_EMBED_GASNet_CONFIGURE_ARGS" then
              "-DLegion_EMBED_GASNet_CONFIGURE_ARGS=--enable-debug"
            else if String.eqb name "-DBUILD_SHARED_LIBS" then
              if shared spec
              then "-DBUILD_SHARED_LIBS=ON" else "-DBUILD_SHARED_LIBS=OFF"
            else if String.eqb name "-DLegion_OUTPUT_LEVEL" then
              ("-DLegion_OUTPUT_LEVEL=" ++ upper (output_level spec))%string
            else if String.eqb name "-DLegion_CUDA_ARCH" then
              ("-DLegion_CUDA_ARCH=" ++ cuda_arch spec)%string
            else if String.eqb name "-DLegion_HIJACK_CUDART" then
              if cuda_hijack spec
              then "-DLegion_HIJACK_CUDART=ON"
              else "-DLegion_HIJACK_CUDART=OFF"
            else if String.eqb name "-DCUDA_NVCC_FLAGS:STRING" then
              "-DCUDA_NVCC_FLAGS:STRING=--allow-unsupported-compiler"
            else if String.eqb name "-DLegion_USE_LIBDL" then
              if libdl spec
              then "-DLegion_USE_LIBDL=ON" else "-DLegion_USE_LIBDL=OFF"
            else if String.eqb name "-DLegion_USE_ZLIB" then
              if zlib spec
              then "-DLegion_USE_ZLIB=ON" else "-DLegion_USE_ZLIB=OFF"
            else if String.eqb name "-DLegion_MAX_DIM" then
              ("-DLegion_MAX_DIM=" ++ fmt_d (max_dims spec))%string
            else if String.eqb name "-DLegion_MAX_FIELDS" then
              ("-DLegion_MAX_FIELDS="
               ++ fmt_d (normalized_max_fields (max_fields spec)))%string
            else if String.eqb name "-DBUILD_MARCH:STRING" then
              "-DBUILD_MARCH:STRING=native"
            else (name ++ "=ON")%string).
  intros o Hin. in_cases; reflexivity.
Qed.

(** X7. The returned list never gives one CMake variable two different
    values: two options with the same text before the [=] are the same
    option. *)
Theorem no_variable_set_twice_differently fuel spec st :
  cmake_args_ok spec = true ->
  enough_fuel fuel spec ->
  exists opts st',
    cmake_args fuel spec st = (Returned opts, st')
    /\ forall a b, In a opts -> In b opts ->
         cmake_name a = cmake_name b -> a = b.
Proof.
  intros Hok Hfuel. returns Hok Hfuel.
  destruct (options_by_name spec) as [f Hf].
  intros a b Ha Hb Hname.
  rewrite (Hf a Ha), (Hf b Hb). now rewrite Hname.
Qed.

Lemma no_variable_set_twice_differently_witness :
  exists opts st',
    cmake_args 512 bindings_twice (fresh []) = (Returned opts, st')
    /\ forall a b, In a opts -> In b opts ->
         cmake_name a = cmake_name b -> a = b.
Proof.
  apply (no_variable_set_twice_differently 512 bindings_twice (fresh [])).
  - reflexivity.
  - unfold enough_fuel. cbn. lia.
Defined.

(** X8. The returned list starts with the option of the transport block
    and ends with the dimension limit, the field limit and, when [native]
    is on, the architecture option, in this order. *)
Theorem options_order fuel spec st :
  cmake_args_ok spec = true ->
  enough_fuel fuel spec ->
  exists opts st' middle p,
    cmake_args fuel spec st = (Returned opts, st')
    /\ opts
       = (if String.eqb (network spec) "gasnet"
          then "-DLegion_NETWORKS=gasnetex"
          else if String.eqb (network spec) "mpi"
               then "-DLegion_NETWORKS=mpi"
               else "-DLegion_EMBED_GASNet=OFF")
         :: middle
         ++ [("-DLegion_MAX_DIM=" ++ fmt_d (max_dims spec))%string;
             ("-DLegion_MAX_FIELDS=" ++ fmt_d p)%string]
         ++ (if native spec then ["-DBUILD_MARCH:STRING=native"] else []).
Proof.
  intros Hok Hfuel.
  rewrite (cmake_args_returns _ _ _ Hok Hfuel).
  exists (all_options spec). eexists.
  exists (tl (transport_options spec) ++ checks_options spec
          ++ cuda_options spec ++ library_options spec
          ++ bindings_options spec).
  exists (normalized_max_fields (max_fields spec)).
  split; [reflexivity|].
  unfold all_options, limits_options.
  rewrite <- !app_assoc.
  change (?x :: ?l ++ ?r) with ((x :: l) ++ r).
  f_equal.
  unfold transport_options.
  destruct (String.eqb (network spec) "gasnet"); [reflexivity|].
  now destruct (String.eqb (network spec) "mpi").
Qed.

Lemma options_order_witness :
  exists opts st' middle p,
    cmake_args 512 scenario_A (fresh []) = (Returned opts, st')
    /\ opts
       = "-DLegion_NETWORKS=gasnetex"
         :: middle
         ++ [("-DLegion_MAX_DIM=" ++ fmt_d (max_dims scenario_A))%string;
             ("-DLegion_MAX_FIELDS=" ++ fmt_d p)%string]
         ++ [].
Proof.
  apply (options_order 512 scenario_A (fresh [])).
  - reflexivity.
  - unfold enough_fuel. cbn. lia.
Defined.

(* ================================================================== *)
(** ** More on the field limit *)

(** X9. The loop of lines 327-328 ends exactly on the integers that are
    not negative: on a negative one it never leaves, whatever the fuel,
    and on [n >= 0] it returns the top bit of [n] (0 for 0) after at most
    [n + 1] tests. The test of line 322 is what keeps [cmake_args] out of
    the first case. *)
Theorem loop_ends_on_nonnegative_only n :
  (n < 0 ->
   forall fuel st, while_clear_lowest_bit fuel n st = (OutOfFuel, st))
  /\ (0 <= n ->
      forall fuel st, (Z.to_nat n < fuel)%nat ->
        while_clear_lowest_bit fuel n st
        = (Returned (if n =? 0 then 0 else 2 ^ Z.log2 n), st)).
Proof.
  split.
  - intros Hn fuel. revert n Hn.
    induction fuel as [|fuel IH]; intros n Hn st; [reflexivity|].
    cbn [while_clear_lowest_bit].
    assert (Hneg : Z.land n (n - 1) < 0) by (apply Z.land_neg; lia).
    destruct (Z.eqb_spec (Z.land n (n - 1)) 0) as [Hz|_]; [lia|].
    cbn [negb]. now apply IH.
  - intros Hn fuel st Hfuel.
    destruct (Z.eqb_spec n 0) as [->|Hnz].
    + destruct fuel as [|fuel]; [lia | reflexivity].
    + destruct st as [opts cxx env].
      rewrite (Bits.while_clear_lowest_bit_runs fuel n) by lia.
      now rewrite !app_nil_r.
Qed.

Lemma loop_ends_on_nonnegative_only_witness :
  while_clear_lowest_bit 7 (-4) (fresh []) = (OutOfFuel, fresh [])
  /\ while_clear_lowest_bit 101 100 (fresh []) = (Returned 64, fresh []).
Proof.
  split.
  - apply (proj1 (loop_ends_on_nonnegative_only (-4))). lia.
  - apply (proj2 (loop_ends_on_nonnegative_only 100)); lia.
Defined.

(** The value of line 330 is a power of two, and none below the request. *)
Lemma normalized_max_fields_power_of_two v :
  power_of_two (normalized_max_fields v) /\ v <= normalized_max_fields v.
Proof.
  destruct (normalized_max_fields_spec v) as (Hle & Hpow & Hnp).
  destruct (Z.le_gt_cases v 0) as [Hv|Hv].
  - rewrite (Hle Hv). split; [|lia]. exists 9. split; [lia | reflexivity].
  - apply Z.gt_lt_iff in Hv. apply Z.gt_lt in Hv.
    destruct (Z.eq_dec (Z.land v (v - 1)) 0) as [Hz|Hnz].
    + pose proof (Bits.land_zero_power_of_two v Hv Hz) as Hp.
      rewrite (Hpow Hv Hp). split; [assumption | lia].
    + assert (Hnot : ~ power_of_two v).
      { intros Hp. apply Hnz. now apply Bits.power_of_two_land. }
      rewrite (Hnp Hv Hnot).
      pose proof (Z.log2_nonneg v).
      split.
      * exists (Z.log2 v + 1). split; [lia | reflexivity].
      * pose proof (Z.log2_spec v Hv) as [_ Hhi].
        replace (Z.succ (Z.log2 v)) with (Z.log2 v + 1) in Hhi by lia.
        lia.
Qed.

(** For a positive request it is the least such power of two. *)
Lemma normalized_max_fields_least v q :
  0 < v -> power_of_two q -> v <= q -> normalized_max_fields v <= q.
Proof.
  intros Hv Hq Hle.
  destruct (normalized_max_fields_spec v) as (_ & Hpow & Hnp).
  destruct (Z.eq_dec (Z.land v (v - 1)) 0) as [Hz|Hnz].
  - rewrite (Hpow Hv (Bits.land_zero_power_of_two v Hv Hz)). exact Hle.
  - assert (Hnot : ~ power_of_two v).
    { intros Hp. apply Hnz. now apply Bits.power_of_two_land. }
    rewrite (Hnp Hv Hnot).
    destruct Hq as (k & Hk & ->).
    pose proof (Z.log2_nonneg v).
    pose proof (Z.log2_spec v Hv) as [Hlo _].
    apply Z.pow_le_mono_r; [lia|].
    destruct (Z.lt_ge_cases (Z.log2 v) k) as [|Hsmall]; [lia|].
    assert (2 ^ k <= 2 ^ Z.log2 v) by (apply Z.pow_le_mono_r; lia).
    assert (v = 2 ^ k) by lia.
    destruct Hnot. exists k. now split.
Qed.

Lemma max_fields_flag_of fuel spec st :
  cmake_args_ok spec = true ->
  enough_fuel fuel spec ->
  with_prefix "-DLegion_MAX_FIELDS="
    (returned_options (cmake_args fuel spec st))
  = [("-DLegion_MAX_FIELDS="
      ++ fmt_d (normalized_max_fields (max_fields spec)))%string].
Proof.
  intros Hok Hfuel.
  rewrite (cmake_args_returns _ _ _ Hok Hfuel).
  unfold returned_options. cbn [fst]. keep_blocks. reflexivity.
Qed.

(** X10. On every accepted spec the value [p] of the field-limit flag is
    a power of two and is not below the requested [max_fields]; for a
    positive request it is the least such power of two; and a spec that
    asks for [p] itself gets [p] again. *)
Theorem max_fields_flag_is_power_of_two fuel spec st :
  cmake_args_ok spec = true ->
  enough_fuel fuel spec ->
  exists p,
    with_prefix "-DLegion_MAX_FIELDS="
      (returned_options (cmake_args fuel spec st))
    = [("-DLegion_MAX_FIELDS=" ++ fmt_d p)%string]
    /\ power_of_two p
    /\ max_fields spec <= p
    /\ (0 < max_fields spec ->
        forall q, power_of_two q -> max_fields spec <= q -> p <= q)
    /\ (forall fuel' st2,
          enough_fuel fuel' (set_max_fields p spec) ->
          with_prefix "-DLegion_MAX_FIELDS="
            (returned_options
               (cmake_args fuel' (set_max_fields p spec) st2))
          = [("-DLegion_MAX_FIELDS=" ++ fmt_d p)%string]).
Proof.
  intros Hok Hfuel.
  exists (normalized_max_fields (max_fields spec)).
  destruct (normalized_max_fields_power_of_two (max_fields spec))
    as [Hpow Hge].
  split; [now apply max_fields_flag_of|].
  split; [exact Hpow|]. split; [exact Hge|]. split.
  - intros Hpos q Hq Hle. now apply normalized_max_fields_least.
  - intros fuel' st2 Hfuel'.
    rewrite max_fields_flag_of by assumption.
    cbn [max_fields set_max_fields].
    destruct (normalized_max_fields_spec
                (normalized_max_fields (max_fields spec)))
      as (_ & Hfix & _).
    rewrite Hfix; [reflexivity | now apply Bits.power_of_two_pos | exact Hpow].
Qed.

Lemma max_fields_flag_is_power_of_two_witness :
  exists p,
    with_prefix "-DLegion_MAX_FIELDS="
      (returned_options (cmake_args 100 scenario_C (fresh [])))
    = [("-DLegion_MAX_FIELDS=" ++ fmt_d p)%string]
    /\ power_of_two p
    /\ max_fields scenario_C <= p
    /\ (0 < max_fields scenario_C ->
        forall q, power_of_two q -> max_fields scenario_C <= q -> p <= q)
    /\ (forall fuel' st2,
          enough_fuel fuel' (set_max_fields p scenario_C) ->
          with_prefix "-DLegion_MAX_FIELDS="
            (returned_options
               (cmake_args fuel' (set_max_fields p scenario_C) st2))
          = [("-DLegion_MAX_FIELDS=" ++ fmt_d p)%string]).
Proof.
  apply (max_fields_flag_is_power_of_two 100 scenario_C (fresh [])).
  - reflexivity.
  - unfold enough_fuel. cbn. lia.
Defined.

(** X11. Among positive requests the field limit is monotone: a larger
    [max_fields] never gets a smaller flag value. *)
Theorem max_fields_flag_monotone fuel spec st v w :
  cmake_args_ok spec = true ->
  0 < v <= w ->
  (Z.to_nat w <= fuel)%nat ->
  exists p q,
    with_prefix "-DLegion_MAX_FIELDS="
      (returned_options (cmake_args fuel (set_max_fields v spec) st))
    = [("-DLegion_MAX_FIELDS=" ++ fmt_d p)%string]
    /\ with_prefix "-DLegion_MAX_FIELDS="
         (returned_options (cmake_args fuel (set_max_fields w spec) st))
       = [("-DLegion_MAX_FIELDS=" ++ fmt_d q)%string]
    /\ p <= q.
Proof.
  intros Hok [Hv Hvw] Hfuel.
  exists (normalized_max_fields v), (normalized_max_fields w).
  split; [|split].
  - apply (max_fields_flag_of fuel (set_max_fields v spec) st Hok).
    unfold enough_fuel. cbn [max_fields set_max_fields]. lia.
  - apply (max_fields_flag_of fuel (set_max_fields w spec) st Hok).
    exact Hfuel.
  - destruct (normalized_max_fields_power_of_two w) as [Hpow Hge].
    apply normalized_max_fields_least; [assumption | assumption | lia].
Qed.

Lemma max_fields_flag_monotone_witness :
  exists p q,
    with_prefix "-DLegion_MAX_FIELDS="
      (returned_options
         (cmake_args 100 (set_max_fields 64 default_spec) (fresh [])))
    = [("-DLegion_MAX_FIELDS=" ++ fmt_d p)%string]
    /\ with_prefix "-DLegion_MAX_FIELDS="
         (returned_options
            (cmake_args 100 (set_max_fields 65 default_spec) (fresh [])))
       = [("-DLegion_MAX_FIELDS=" ++ fmt_d q)%string]
    /\ p <= q.
Proof.
  apply (max_fields_flag_monotone 100 default_spec (fresh []) 64 65).
  - reflexivity.
  - lia.
  - cbn. lia.
Defined.

(* ================================================================== *)
(** ** The declared conflicts *)

Lemma find_none_existsb {A} (f : A -> bool) (l : list A) :
  find f l = None <-> existsb f l = false.
Proof.
  induction l as [|x l IH]; cbn; [tauto|].
  destruct (f x); cbn; [split; discriminate | exact IH].
Qed.

(** The fifteen directives as one test. *)
Lemma checkAll_none_iff spec :
  checkAll spec = None
  <-> (gasnet_root_set spec && String.eqb (network spec) "mpi")
      || (String.eqb (conduit spec) "none"
          && String.eqb (network spec) "gasnet")
      || (existsb (String.eqb (conduit spec)) gasnet_conduits
          && (String.eqb (network spec) "mpi"
              || String.eqb (network spec) "none"))
      || (gasnet_debug spec
          && (String.eqb (network spec) "mpi"
              || String.eqb (network spec) "none"))
      || (cuda_hijack spec && negb (cuda spec)) = false.
Proof.
  unfold checkAll. rewrite find_none_existsb.
  unfold conflicts, gasnet_conduits.
  cbn [existsb app flat_map conflict_spec when].
  match goal with
  | |- ?a = false <-> ?b = false =>
      assert (Heq : a = b) by btauto; now rewrite Heq
  end.
Qed.

Lemma translate_conflict fuel spec st r :
  checkAll spec = Some r ->
  translate fuel spec st = (Raised (ConflictError (msg r)), st).
Proof. intros Hgate. unfold translate. now rewrite Hgate. Qed.

Lemma in_gasnet_conduits c :
  existsb (String.eqb c) gasnet_conduits = true <-> In c gasnet_conduits.
Proof.
  rewrite existsb_exists. split.
  - intros (x & Hin & Heq). apply String.eqb_eq in Heq. now subst.
  - intros Hin. exists c. split; [assumption | apply String.eqb_refl].
Qed.

(** X12. A spec passes the declared conflicts exactly when: with
    [network=mpi] its [gasnet_root] is "none"; with [network=gasnet] its
    conduit is not "none"; with [network=mpi] or [network=none] its
    conduit is none of the five GASNet conduits and [gasnet_debug] is
    off; and [cuda_hijack] is on only with [cuda]. *)
Theorem gate_passes_iff spec :
  checkAll spec = None
  <-> (network spec = "mpi" -> gasnet_root spec = "none")
      /\ (network spec = "gasnet" -> conduit spec <> "none")
      /\ (network spec = "mpi" \/ network spec = "none" ->
          ~ In (conduit spec) gasnet_conduits
          /\ gasnet_debug spec = false)
      /\ (cuda_hijack spec = true -> cuda spec = true).
Proof.
  rewrite checkAll_none_iff. unfold gasnet_root_set.
  rewrite <- in_gasnet_conduits.
  destruct (String.eqb_spec (network spec) "mpi") as [Hm|Hm];
    destruct (String.eqb_spec (network spec) "gasnet") as [Hg|Hg];
    destruct (String.eqb_spec (network spec) "none") as [Hn|Hn];
    try (rewrite Hm in Hg; discriminate);
    try (rewrite Hm in Hn; discriminate);
    try (rewrite Hg in Hn; discriminate);
    destruct (String.eqb_spec (gasnet_root spec) "none") as [Hr|Hr];
    destruct (String.eqb_spec (conduit spec) "none") as [Hc|Hc];
    destruct (existsb (String.eqb (conduit spec)) gasnet_conduits);
    destruct (gasnet_debug spec), (cuda_hijack spec), (cuda spec);
    cbn; split; intros H; try discriminate; try reflexivity;
    repeat split; intros; try discriminate; try congruence; try tauto;
    try (exfalso; intuition congruence).
Qed.

(** X13. The conduit conflicts. With [network=gasnet] and [conduit=none]
    the translation raises the [ConflictError] that asks for a conduit;
    with [network=none] and one of the five GASNet conduits it raises the
    one that asks for [network=gasnet]; with [network=mpi] and one of the
    five it raises a [ConflictError] too, the one of [gasnet_root] when
    that is set as well. No [cmake_args] runs: the frame is untouched. *)
Theorem conduit_conflicts fuel spec st :
  (network spec = "gasnet" -> conduit spec = "none" ->
   translate fuel spec st
   = (Raised (ConflictError
                (Some "a conduit must be selected when 'network=gasnet'")),
      st))
  /\ (network spec = "none" -> In (conduit spec) gasnet_conduits ->
      translate fuel spec st
      = (Raised (ConflictError (Some conduit_msg)), st))
  /\ (network spec = "mpi" -> In (conduit spec) gasnet_conduits ->
      translate fuel spec st
      = (Raised (ConflictError
                   (if gasnet_root_set spec then None
                    else Some conduit_msg)), st)).
Proof.
  unfold translate, checkAll, conflicts, gasnet_conduits.
  cbn [app flat_map find conflict_spec when].
  split; [|split].
  - intros Hnet Hc. rewrite Hnet, Hc. cbn [String.eqb Ascii.eqb Bool.eqb].
    rewrite andb_false_r. reflexivity.
  - intros Hnet Hc. rewrite Hnet.
    cbn [String.eqb Ascii.eqb Bool.eqb]. rewrite !andb_false_r.
    cbn in Hc.
    destruct Hc as [<-|[<-|[<-|[<-|[<-|[]]]]]]; reflexivity.
  - intros Hnet Hc. rewrite Hnet.
    cbn [String.eqb Ascii.eqb Bool.eqb]. rewrite !andb_false_r, !andb_true_r.
    destruct (gasnet_root_set spec); [reflexivity|].
    cbn in Hc.
    destruct Hc as [<-|[<-|[<-|[<-|[<-|[]]]]]]; reflexivity.
Qed.

Lemma conduit_conflicts_witness :
  translate 512 gasnet_without_conduit (fresh [])
  = (Raised (ConflictError
               (Some "a conduit must be selected when 'network=gasnet'")),
     fresh [])
  /\ translate 512 conduit_without_gasnet (fresh [])
     = (Raised (ConflictError (Some conduit_msg)), fresh []).
Proof.
  split.
  - apply (proj1 (conduit_conflicts 512 gasnet_without_conduit (fresh [])));
      reflexivity.
  - apply (proj1 (proj2 (conduit_conflicts 512 conduit_without_gasnet
                           (fresh [])))).
    + reflexivity.
    + cbn. tauto.
Defined.

(** X14. [+cuda_hijack] without [cuda], and [+gasnet_debug] with
    [network=mpi] or [network=none], never reach [cmake_args]: the
    translation raises a [ConflictError] and the frame is untouched. *)
Theorem hijack_and_debug_conflicts fuel spec st :
  (cuda_hijack spec = true /\ cuda spec = false)
  \/ (gasnet_debug spec = true
      /\ (network spec = "mpi" \/ network spec = "none")) ->
  exists m, translate fuel spec st = (Raised (ConflictError m), st).
Proof.
  intros Hbad.
  destruct (checkAll spec) as [r|] eqn:Hgate.
  - exists (msg r). now apply translate_conflict.
  - exfalso. apply checkAll_none_iff in Hgate.
    destruct Hbad as [[Hh Hc]|[Hd [Hn|Hn]]].
    + rewrite Hh, Hc in Hgate. cbn in Hgate.
      now rewrite !orb_true_r in Hgate.
    + rewrite Hd, Hn in Hgate. cbn in Hgate.
      now rewrite ?andb_true_r, ?orb_true_r in Hgate.
    + rewrite Hd, Hn in Hgate. cbn in Hgate.
      now rewrite ?andb_true_r, ?orb_true_r in Hgate.
Qed.

Lemma hijack_and_debug_conflicts_witness :
  exists m,
    translate 512 hijack_without_cuda (fresh [])
    = (Raised (ConflictError m), fresh []).
Proof.
  apply (hijack_and_debug_conflicts 512 hijack_without_cuda (fresh [])).
  left. split; reflexivity.
Defined.

(** A translation that returns has passed the conflicts and the guards of
    [cmake_args], and returns [all_options]. *)
Lemma translate_returned fuel spec st opts st' :
  enough_fuel fuel spec ->
  translate fuel spec st = (Returned opts, st') ->
  checkAll spec = None /\ cmake_args_ok spec = true
  /\ opts = all_options spec.
Proof.
  intros Hfuel Hrun. unfold translate in Hrun.
  destruct (checkAll spec) as [r|]; [discriminate|].
  split; [reflexivity|].
  destruct (cmake_args_ok spec) eqn:Hok.
  - rewrite (cmake_args_returns _ _ _ Hok Hfuel) in Hrun.
    split; [reflexivity|]. now injection Hrun as <- _.
  - destruct (cmake_args_raises fuel spec st Hok) as (e & st2 & Hr & _).
    rewrite Hr in Hrun. discriminate.
Qed.

(** X15. What the conflicts add to [cmake_args]. When a translation
    returns for a spec whose conduit is one of the declared values: with
    [network=gasnet] the conduit flag names one of the five GASNet
    conduits, never "none"; with [network=mpi] or [network=none] the
    conduit is "none", [gasnet_debug] is off and the list has no GASNet
    root, conduit or configure flag. *)
Theorem translated_conduit fuel spec st opts st' :
  enough_fuel fuel spec ->
  translate fuel spec st = (Returned opts, st') ->
  In (conduit spec) conduit_values ->
  (network spec = "gasnet" ->
   In (conduit spec) gasnet_conduits
   /\ with_prefix "-DGASNet_CONDUIT=" opts
      = [("-DGASNet_CONDUIT=" ++ conduit spec)%string])
  /\ (network spec = "mpi" \/ network spec = "none" ->
      conduit spec = "none" /\ gasnet_debug spec = false
      /\ with_prefix "-DGASNet_" opts = []
      /\ with_prefix "-DLegion_EMBED_GASNet_CONFIGURE_ARGS" opts = []).
Proof.
  intros Hfuel Hrun Hdom.
  destruct (translate_returned _ _ _ _ _ Hfuel Hrun) as (Hgate & _ & ->).
  apply checkAll_none_iff in Hgate.
  apply orb_false_iff in Hgate. destruct Hgate as [Hgate _].
  apply orb_false_iff in Hgate. destruct Hgate as [Hgate Hdebug].
  apply orb_false_iff in Hgate. destruct Hgate as [Hgate Hconduit].
  apply orb_false_iff in Hgate. destruct Hgate as [_ Hnone].
  assert (Hsplit : conduit spec = "none" \/ In (conduit spec) gasnet_conduits).
  { cbn in Hdom.
    destruct Hdom as [H|[H|[H|[H|[H|[H|[]]]]]]]; rewrite <- H; cbn;
      auto 10. }
  split.
  - intros Hnet. rewrite Hnet in Hnone. cbn in Hnone.
    rewrite andb_true_r in Hnone. apply String.eqb_neq in Hnone.
    split; [tauto|].
    keep_blocks. rewrite Hnet, String.eqb_refl. settle.
  - intros Hnet.
    assert (Hother :
              String.eqb (network spec) "mpi"
              || String.eqb (network spec) "none" = true).
    { destruct Hnet as [-> | ->]; reflexivity. }
    assert (Hng : String.eqb (network spec) "gasnet" = false).
    { destruct Hnet as [-> | ->]; reflexivity. }
    rewrite Hother, andb_true_r in Hconduit, Hdebug.
    assert (Hnot : ~ In (conduit spec) gasnet_conduits).
    { intros Hin. apply in_gasnet_conduits in Hin. congruence. }
    repeat split; try tauto; keep_blocks; rewrite Hng; settle.
Qed.

Lemma translated_conduit_witness :
  In (conduit scenario_A) gasnet_conduits
  /\ with_prefix "-DGASNet_CONDUIT="
       (returned_options (translate 512 scenario_A (fresh [])))
     = [("-DGASNet_CONDUIT=" ++ conduit scenario_A)%string].
Proof.
  apply (proj1 (translated_conduit 512 scenario_A (fresh [])
                  (returned_options (translate 512 scenario_A (fresh [])))
                  (snd (translate 512 scenario_A (fresh [])))
                  ltac:(unfold enough_fuel; cbn; lia)
                  ltac:(vm_compute; reflexivity)
                  ltac:(cbn; tauto))).
  reflexivity.
Defined.

(* ================================================================== *)
(** ** The environment and the frame *)

Lemma cmake_args_environ fuel spec st :
  enough_fuel fuel spec ->
  os_environ (snd (translate fuel spec st)) = os_environ st
  \/ (exists opts, fst (translate fuel spec st) = Returned opts)
     /\ kokkos spec = true
     /\ os_environ (snd (translate fuel spec st))
        = ("KOKKOS_CXX_COMPILER", kokkos_cxx spec) :: os_environ st.
Proof.
  intros Hfuel. unfold translate.
  destruct (checkAll spec) as [r|]; [now left|].
  destruct (cmake_args_ok spec) eqn:Hok.
  - rewrite (cmake_args_returns _ _ _ Hok Hfuel). cbn [fst snd os_environ].
    unfold kokkos_environ. destruct (kokkos spec); [right | now left].
    split; [eexists; reflexivity | now split].
  - destruct (cmake_args_raises fuel spec st Hok) as (e & st' & -> & Henv & _).
    now left.
Qed.

(** X16. A translation changes no environment variable other than
    [KOKKOS_CXX_COMPILER]; and after one that returns with [kokkos] on, a
    lookup of that variable gives the compiler path of the kokkos node,
    whatever it gave before. *)
Theorem environment_frame fuel spec st :
  enough_fuel fuel spec ->
  (forall k, k <> "KOKKOS_CXX_COMPILER" ->
     getenv k (os_environ (snd (translate fuel spec st)))
     = getenv k (os_environ st))
  /\ ((exists opts, fst (translate fuel spec st) = Returned opts) ->
      kokkos spec = true ->
      getenv "KOKKOS_CXX_COMPILER"
        (os_environ (snd (translate fuel spec st)))
      = Some (kokkos_cxx spec)).
Proof.
  intros Hfuel.
  destruct (cmake_args_environ fuel spec st Hfuel) as [Hsame|(Hret & Hk & Hnew)].
  - split.
    + intros k _. now rewrite Hsame.
    + intros [opts Hopts] Hkok. exfalso.
      unfold translate in Hopts, Hsame.
      destruct (checkAll spec); [discriminate|].
      destruct (cmake_args_ok spec) eqn:Hok.
      * rewrite (cmake_args_returns _ _ _ Hok Hfuel) in Hsame.
        cbn [snd os_environ] in Hsame. unfold kokkos_environ in Hsame.
        rewrite Hkok in Hsame. cbn in Hsame.
        apply (f_equal (@List.length _)) in Hsame. cbn in Hsame. lia.
      * destruct (cmake_args_raises fuel spec st Hok) as (e & st' & Hr & _).
        rewrite Hr in Hopts. discriminate.
  - rewrite Hnew. split.
    + intros k Hne. cbn [getenv]. apply String.eqb_neq in Hne.
      now rewrite Hne.
    + intros _ _. reflexivity.
Qed.

Lemma environment_frame_witness :
  (forall k, k <> "KOKKOS_CXX_COMPILER" ->
     getenv k (os_environ
                 (snd (translate 512 with_kokkos
                         (fresh [("KOKKOS_CXX_COMPILER", "cc");
                                 ("PATH", "/bin")]))))
     = getenv k [("KOKKOS_CXX_COMPILER", "cc"); ("PATH", "/bin")])
  /\ ((exists opts,
          fst (translate 512 with_kokkos
                 (fresh [("KOKKOS_CXX_COMPILER", "cc"); ("PATH", "/bin")]))
          = Returned opts) ->
      kokkos with_kokkos = true ->
      getenv "KOKKOS_CXX_COMPILER"
        (os_environ
           (snd (translate 512 with_kokkos
                   (fresh [("KOKKOS_CXX_COMPILER", "cc");
                           ("PATH", "/bin")]))))
      = Some "/usr/bin/g++").
Proof.
  apply (environment_frame 512 with_kokkos
           (fresh [("KOKKOS_CXX_COMPILER", "cc"); ("PATH", "/bin")])).
  unfold enough_fuel. cbn. lia.
Defined.

(** X17. A call of [cmake_args] starts from empty lists (lines 197-198):
    what it returns or raises does not depend on the options, the
    compiler flags or the environment that an earlier call has left. *)
Theorem cmake_args_starts_afresh fuel spec st1 st2 :
  enough_fuel fuel spec ->
  fst (cmake_args fuel spec st1) = fst (cmake_args fuel spec st2).
Proof.
  intros Hfuel.
  destruct (cmake_args_ok spec) eqn:Hok.
  - now rewrite !(cmake_args_returns _ _ _ Hok Hfuel).
  - unfold cmake_args_ok in Hok.
    destruct (String.eqb (network spec) "gasnet"
              || String.eqb (gasnet_root spec) "none") eqn:Hguard.
    + cbn [andb] in Hok. apply orb_false_iff in Hok.
      destruct Hok as [Hkok Hnode]. apply negb_false_iff in Hkok.
      destruct (cmake_args_key_error fuel spec st1 Hguard Hkok Hnode)
        as (? & -> & _).
      destruct (cmake_args_key_error fuel spec st2 Hguard Hkok Hnode)
        as (? & -> & _).
      reflexivity.
    + apply orb_false_iff in Hguard. destruct Hguard as [Hnet Hroot].
      destruct (cmake_args_install_error fuel spec st1 Hnet Hroot)
        as (? & -> & _).
      destruct (cmake_args_install_error fuel spec st2 Hnet Hroot)
        as (? & -> & _).
      reflexivity.
Qed.

Lemma cmake_args_starts_afresh_witness :
  fst (cmake_args 512 scenario_E (fresh []))
  = fst (cmake_args 512 scenario_E
           {| options := ["-DLegion_SPY=ON"];
              cmake_cxx_flags := ["-ggdb"];
              os_environ := [("PATH", "/bin")] |}).
Proof.
  apply (cmake_args_starts_afresh 512 scenario_E).
  unfold enough_fuel. cbn. lia.
Defined.

(* ================================================================== *)
(** ** The Kokkos requirements *)

(** Settles the case of one architecture of the list. *)
Ltac try_arch v :=
  match goal with
  | |- context [String.eqb ?a v] =>
      let E := fresh "E" in
      destruct (String.eqb_spec a v) as [E|];
      [rewrite ?E; reflexivity|]
  end.

(** X18. Of the Kokkos requirements of lines 51-57 at most one holds for
    a build. With [+kokkos ~cuda] it is [kokkos@3.3.01~cuda]. With
    [+kokkos +cuda] and one of the four architectures it is a CUDA build
    of Kokkos for the architecture of the spec, with the wrapper for gcc
    and without it for clang, and nothing for any other compiler. *)
Theorem kokkos_required_spec compiler spec :
  kokkos_required compiler spec
  = if kokkos spec then
      if cuda spec then
        if existsb (String.eqb (cuda_arch spec)) cuda_arch_list then
          if String.eqb compiler "gcc" then
            [("kokkos@3.3.01+cuda+cuda_lambda+wrapper cuda_arch="
              ++ cuda_arch spec)%string]
          else if String.eqb compiler "clang" then
            [("kokkos@3.3.01+cuda+cuda_lambda~wrapper cuda_arch="
              ++ cuda_arch spec)%string]
          else []
        else []
      else ["kokkos@3.3.01~cuda"]
    else [].
Proof.
  unfold kokkos_required, kokkos_depends, cuda_arch_list.
  cbn [flat_map app filter map dep dep_when existsb].
  destruct (kokkos spec), (cuda spec); cbn [andb negb];
    rewrite ?andb_false_r, ?andb_true_r; cbn [andb negb map];
    try reflexivity.
  - destruct (String.eqb_spec compiler "gcc") as [->|Hgcc];
      [|destruct (String.eqb_spec compiler "clang") as [->|Hclang]];
      cbn [andb String.eqb Ascii.eqb Bool.eqb];
      try_arch "60"; try_arch "70"; try_arch "75"; try_arch "80";
      reflexivity.
Qed.

(* ================================================================== *)
(** ** The logging level *)



(* ================================================================== *)
(** ** The guards of [cmake_args] behind the conflicts *)

(** X20. Behind the declared conflicts the [InstallError] of line 219 is
    out of reach: a translation that raises [InstallError] has passed the
    conflicts with a [network] that is neither "gasnet" nor "mpi", so the
    raise is the one of line 222. *)
Theorem install_error_behind_the_gate fuel spec st m :
  enough_fuel fuel spec ->
  fst (translate fuel spec st) = Raised (InstallError m) ->
  checkAll spec = None
  /\ network spec <> "gasnet" /\ network spec <> "mpi"
  /\ gasnet_root spec <> "none"
  /\ m = gasnet_root_msg.
Proof.
  intros Hfuel. unfold translate.
  destruct (checkAll spec) as [r|] eqn:Hgate; [discriminate|].
  intros Hrun. split; [reflexivity|].
  destruct (cmake_args_ok spec) eqn:Hok.
  { rewrite (cmake_args_returns _ _ _ Hok Hfuel) in Hrun. discriminate. }
  unfold cmake_args_ok in Hok.
  destruct (String.eqb (network spec) "gasnet"
            || String.eqb (gasnet_root spec) "none") eqn:Hguard.
  { cbn [andb] in Hok. apply orb_false_iff in Hok.
    destruct Hok as [Hkok Hnode]. apply negb_false_iff in Hkok.
    destruct (cmake_args_key_error fuel spec st Hguard Hkok Hnode)
      as (st' & Hr & _).
    rewrite Hr in Hrun. discriminate. }
  apply orb_false_iff in Hguard. destruct Hguard as [Hnet Hroot].
  destruct (cmake_args_install_error fuel spec st Hnet Hroot)
    as (st' & Hr & _).
  rewrite Hr in Hrun. cbn [fst] in Hrun.
  apply String.eqb_neq in Hnet.
  split; [exact Hnet|]. split.
  - intros Hmpi. apply checkAll_none_iff in Hgate.
    unfold gasnet_root_set in Hgate.
    rewrite Hmpi, Hroot in Hgate. discriminate Hgate.
  - split; [now apply String.eqb_neq | congruence].
Qed.

Lemma install_error_behind_the_gate_witness :
  checkAll stray_gasnet_root = None
  /\ network stray_gasnet_root <> "gasnet"
  /\ network stray_gasnet_root <> "mpi"
  /\ gasnet_root stray_gasnet_root <> "none"
  /\ gasnet_root_msg = gasnet_root_msg.
Proof.
  apply (install_error_behind_the_gate 512 stray_gasnet_root (fresh [])
           gasnet_root_msg).
  - unfold enough_fuel. cbn. lia.
  - vm_compute. reflexivity.
Defined.
